(** * infographics: a shallow embedding of [src/infographics/__init__.py]

    The module is glue between Python arguments and a remote GIS service.
    Every remote call ([gis._con.get], [gis.content.search],
    [arcgis.geoenrichment.create_report]) is modelled as an event appended
    to a log, answered by a [World] that stands for the service; exceptions
    are values of [exn]; the [functools.cache] wrapper of [get_countries] is
    a finite map from session identities to tables. *)

From Stdlib Require Import ZArith Ascii String List Bool Lia.
From stdpp Require Import base option list gmap strings.

Import ListNotations.
Local Open Scope string_scope.
Local Open Scope Z_scope.
Local Open Scope list_scope.

(** ** Python strings

    Python [str] values are modelled as [string]; [str.lower] is modelled
    on the ASCII letters, which is all the format names, extensions and
    keywords compared by the module consist of. *)

Module PyStr.

Definition lower_char (c : ascii) : ascii :=
  let n := nat_of_ascii c in
  if (Nat.leb 65 n && Nat.leb n 90)%bool then ascii_of_nat (n + 32)%nat else c.

(** [s.lower()] *)
Fixpoint lower (s : string) : string :=
  match s with
  | EmptyString => EmptyString
  | String c s' => String (lower_char c) (lower s')
  end.

(** [s.startswith(p)] *)
Fixpoint startswith (p s : string) : bool :=
  match p, s with
  | EmptyString, _ => true
  | String a p', String b s' => if Ascii.eqb a b then startswith p' s' else false
  | String _ _, EmptyString => false
  end.

(** [sub in s] *)
Fixpoint contains (sub s : string) : bool :=
  startswith sub s ||
  match s with
  | EmptyString => false
  | String _ s' => contains sub s'
  end.

(** [s.lstrip(chars)] for a one-character [chars] *)
Fixpoint lstrip (c : ascii) (s : string) : string :=
  match s with
  | EmptyString => EmptyString
  | String a s' => if Ascii.eqb a c then lstrip c s' else s
  end.

(** [s.rfind(c)] for a one-character [c], the scan starting at index [i]:
    the highest index of [c], or [-1]. *)
Fixpoint rfind_from (c : ascii) (s : string) (i : Z) : Z :=
  match s with
  | EmptyString => -1
  | String a s' =>
      let r := rfind_from c s' (i + 1) in
      if 0 <=? r then r else if Ascii.eqb a c then i else -1
  end.

Definition rfind (c : ascii) (s : string) : Z := rfind_from c s 0.

(** [s[i:]] for [0 <= i] *)
Fixpoint slice_from (i : nat) (s : string) : string :=
  match i, s with
  | O, _ => s
  | S _, EmptyString => EmptyString
  | S k, String _ s' => slice_from k s'
  end.

(** [s.replace(old, new)] for a non-empty [old]: occurrences are replaced
    from the left and do not overlap; [skip] counts the characters of a
    matched occurrence still to be dropped. *)
Fixpoint replace_skip (old new : string) (skip : nat) (s : string) : string :=
  match s with
  | EmptyString => EmptyString
  | String c s' =>
      match skip with
      | S k => replace_skip old new k s'
      | O =>
          if startswith old s
          then new +:+ replace_skip old new (Nat.pred (String.length old)) s'
          else String c (replace_skip old new O s')
      end
  end.

Definition replace (old new s : string) : string := replace_skip old new O s.

(** [sep.join(l)] *)
Fixpoint join (sep : string) (l : list string) : string :=
  match l with
  | [] => ""
  | [x] => x
  | x :: rest => x +:+ sep +:+ join sep rest
  end.

(** [s.split(c)] for a one-character separator; [cur] holds the field
    being read, reversed. *)
Fixpoint split_acc (c : ascii) (cur : string) (s : string) : list string :=
  match s with
  | EmptyString => [cur]
  | String a s' =>
      if Ascii.eqb a c then cur :: split_acc c "" s'
      else split_acc c (cur +:+ String a "") s'
  end.

Definition split (c : ascii) (s : string) : list string := split_acc c "" s.

(** [x in l] for a list of strings *)
Definition in_list (x : string) (l : list string) : bool :=
  existsb (String.eqb x) l.

End PyStr.

(** ** [pathlib.Path] (POSIX flavour)

    A path is its root (["" ], ["/"] or ["//"]) and its components. *)

Record Path := { root : string; parts : list string }.

Module PyPath.

(** [Path(s)]: empty and ["."] components are dropped; exactly two leading
    slashes are kept as the root ["//"]. *)
Definition of_string (s : string) : Path :=
  {| root :=
       if (PyStr.startswith "//" s && negb (PyStr.startswith "///" s))%bool then "//"
       else if PyStr.startswith "/" s then "/" else "";
     parts :=
       filter (λ c, c ≠ "" ∧ c ≠ ".") (PyStr.split "/" s) |}.

(** [p.name] *)
Definition name (p : Path) : string := List.last (parts p) "".

(** [p.parent] *)
Definition parent (p : Path) : Path :=
  {| root := root p; parts := removelast (parts p) |}.

(** [str(p)] *)
Definition to_string (p : Path) : string :=
  match root p, parts p with
  | EmptyString, [] => "."
  | r, l => r +:+ PyStr.join "/" l
  end.

(** [p.suffix]:
    [i = name.rfind('.'); name[i:] if 0 < i < len(name) - 1 else ''] *)
Definition suffix (p : Path) : string :=
  let nm := name p in
  let i := PyStr.rfind "." nm in
  if ((0 <? i) && (i <? Z.of_nat (String.length nm) - 1))%bool
  then PyStr.slice_from (Z.to_nat i) nm
  else "".

End PyPath.

(** ** Python values, sessions, exceptions *)

Set Warnings "-register-all".

(** Values that come out of [json] responses and fill table cells.  [PNaN]
    is the [numpy.nan] marker pandas puts into a cell with no value. *)
Inductive pyval :=
| PNone
| PNaN
| PBool (b : bool)
| PInt (z : Z)
| PStr (s : string)
| PList (l : list pyval)
| PDict (d : list (string * pyval)).

(** [gis.properties.helperServices.geoenrichment] and its [url]; either can
    be [None]. *)
Record Geoenrichment := { url : option string }.

(** A [GIS] object: [gis_id] is the identity of the Python object, which is
    what [functools.cache] hashes and compares a session by. *)
Record GIS := { gis_id : nat; geoenrichment : option Geoenrichment }.

(** A [Geometry]; [JSON] holds what [json.loads(geom.JSON)] yields (the
    attribute is the serialisation of the geometry's own dictionary, so
    loading it does not fail). *)
Record Geometry := { JSON : pyval }.

(** An element of [study_areas]: [isinstance(x, Geometry)] or not. *)
Inductive PyObj :=
| IsGeometry (g : Geometry)
| NotGeometry (v : pyval).

(** [study_areas: Union[Geometry, list[Geometry]]] *)
Inductive StudyAreas :=
| OneArea (o : PyObj)
| AreaList (l : list PyObj).

(** [out_path: Union[str, Path]] *)
Inductive OutPath :=
| OutStr (s : string)
| OutPathObj (p : Path).

(** A hierarchy value: a hierarchy ID, [None] when a hierarchy dictionary
    has no ["ID"] key ([h_dict.get("ID")]), or NaN, the missing-value
    marker of the [hierarchies] column: the column holds a NaN for a
    country with an empty hierarchy list and for a [None] element. *)
Inductive hcell :=
| HStr (s : string)
| HNone
| HNaN.

#[global] Instance hcell_eq_dec : EqDecision hcell.
Proof. solve_decision. Defined.

(** The text of the [ValueError]s raised by the module, by the statement
    that raises them and the values formatted into the message. *)
Inductive message :=
| MsgNoGIS
| MsgNoGeoenrichment (gis : GIS)
| MsgCountryUnavailable (country_iso2 : string)
| MsgInvalidHierarchies (invalid_lst : list hcell).

Inductive exn :=
| ValueError (m : message)
| AssertionError
| AttributeError (attr : string)
| TypeError
| KeyError (missing : list string)
| InvalidIndexError.

(** Keyword arguments of [arcgis.geoenrichment.create_report]. *)
Record ReportArgs := {
  ra_study_areas : list pyval;
  ra_report : string;
  ra_export_format : string;
  ra_out_folder : string;
  ra_out_name : string;
  ra_gis : GIS
}.

(** An entry of the ["countries"] array of the Countries response and one
    of its hierarchy dictionaries. *)
Record HierarchyDict := { ID : option string }.
Record CountryEntry := { id : string; hierarchies : list HierarchyDict }.

(** A catalog item as [gis.content.search] returns it. *)
Record Item := {
  itm_title : pyval;
  itm_id : pyval;
  itm_description : pyval;
  itm_owner : pyval;
  typeKeywords : list string;
  itm_properties : list (string * pyval)
}.

(** A remote call made by the module. *)
Inductive Event :=
| EvGet (gis : GIS) (address : string) (params : list (string * string))
| EvSearch (gis : GIS) (query : string)
| EvCreateReport (args : ReportArgs).

(** The service behind the session, and the ambient [arcgis.env.active_gis].
    A world is one in which the service answers every call.  The module has
    no handler: an exception raised inside an upstream call leaves the
    function that made the call at once, after the event that records the
    call; results given below as returned values are those of calls that
    were answered. *)
Record World := {
  active_gis : option GIS;
  (** [gis._con.get(countries_url).get("countries")] *)
  countries_of : GIS → string → list CountryEntry;
  (** [gis._con.get(infographic_url, params={"f": "json"}).get("reports")] *)
  reports_of : GIS → string → option (list (list (string * pyval)));
  (** [gis.content.search(query)] *)
  search_of : GIS → string → list Item;
  (** the path [create_report] returns *)
  report_of : ReportArgs → string
}.

(** ** Tables ([pandas.DataFrame])

    A table is its column labels and its rows, a row holding one cell per
    column; the row index is left out, nothing in the module reads it. *)
Record DataFrame := { columns : list string; rows : list (list pyval) }.

(** The countries table has the two columns [id] and [hierarchies]: a row
    is a pair. *)
Definition CountriesDF := list (string * hcell).

(** ** The state of the process: the calls made so far and the cache of
    [get_countries] *)
Record State := { log : list Event; cache : gmap nat CountriesDF }.

Inductive Result (A : Type) :=
| Ok (a : A)
| Raise (e : exn).
Arguments Ok {A} a.
Arguments Raise {A} e.

(** A computation runs from a state to a result and the state it leaves. *)
Definition M (A : Type) : Type := State → Result A * State.

#[global] Instance M_ret : MRet M := λ A a s, (Ok a, s).
#[global] Instance M_bind : MBind M := λ A B f m s,
  match m s with
  | (Ok a, s') => f a s'
  | (Raise e, s') => (Raise e, s')
  end.

Definition raise {A} (e : exn) : M A := λ s, (Raise e, s).

Definition emit (ev : Event) : M unit :=
  λ s, (Ok tt, {| log := log s ++ [ev]; cache := cache s |}).

(** [assert b] (the interpreter is not run with [-O], which would drop the
    statement) *)
Definition assert (b : bool) : M unit :=
  if b then mret tt else raise AssertionError.

(** ** [ensure_gis] (lines 25-46) *)
Definition ensure_gis (w : World) (gis : option GIS) : M GIS :=
  let gis := match gis with None => active_gis w | Some g => Some g end in
  match gis with
  | None => raise (ValueError MsgNoGIS)
  | Some g =>
      match geoenrichment g with
      | None => raise (ValueError (MsgNoGeoenrichment g))
      | Some ge =>
          match url ge with
          | None => raise (ValueError (MsgNoGeoenrichment g))
          | Some _ => mret g
          end
      end
  end.

(** [gis.properties.helperServices.geoenrichment.url + tail] *)
Definition geoenrichment_url_plus (gis : GIS) (tail : string) : M string :=
  match geoenrichment gis with
  | None => raise (AttributeError "url")
  | Some ge =>
      match url ge with
      | None => raise TypeError
      | Some u => mret (u +:+ tail)
      end
  end.

(** ** [create_infographic] (lines 228-287) *)

Definition is_geometry (o : PyObj) : bool :=
  match o with IsGeometry _ => true | NotGeometry _ => false end.

(** [[{"geometry": json.loads(geom.JSON)} for geom in in_geom]], run after
    the assertion that every element is a [Geometry]. *)
Definition geometry_dicts (in_geom : list PyObj) : list pyval :=
  flat_map (λ o, match o with
                 | IsGeometry g => [PDict [("geometry", JSON g)]]
                 | NotGeometry _ => []
                 end) in_geom.

(** Lines 264-265: lower-case the format, then assert it is supported. *)
Definition validate_export_format (export_format : option string) : M string :=
  match export_format with
  | None => raise (AttributeError "lower")
  | Some f =>
      let export_format := PyStr.lower f in
      _ ← assert (PyStr.in_list export_format ["xlsx"; "pdf"; "html"]);
      mret export_format
  end.

(** Lines 268-275 on a [Path]: the file name handed to [create_report]. *)
Definition resolve_out_name (out_path : Path) (export_format : string) : string :=
  let out_name := PyPath.name out_path in
  let file_extension := PyStr.lstrip "." (PyPath.suffix out_path) in
  if negb (String.eqb file_extension "htm" && String.eqb export_format "html")
  then
    if negb (String.eqb export_format file_extension)
    then out_name +:+ "." +:+ export_format
    else out_name
  else out_name.

(** Line 255: [[study_areas] if not isinstance(study_areas, list) else study_areas] *)
Definition in_geom_of (study_areas : StudyAreas) : list PyObj :=
  match study_areas with OneArea o => [o] | AreaList l => l end.

Definition create_infographic (w : World) (study_areas : StudyAreas)
    (infographic_id : string) (out_path : OutPath)
    (export_format : option string) (gis : option GIS) : M Path :=
  gis ← ensure_gis w gis;
  let in_geom := in_geom_of study_areas in
  _ ← assert (forallb is_geometry in_geom);
  let in_geom := geometry_dicts in_geom in
  export_format ← validate_export_format export_format;
  (* [out_path.parent]: a [str] has no such attribute *)
  p ← match out_path with
      | OutStr _ => raise (AttributeError "parent")
      | OutPathObj p => mret p
      end;
  let out_folder := PyPath.to_string (PyPath.parent p) in
  let out_name := resolve_out_name p export_format in
  let args := {| ra_study_areas := in_geom;
                 ra_report := infographic_id;
                 ra_export_format := export_format;
                 ra_out_folder := out_folder;
                 ra_out_name := out_name;
                 ra_gis := gis |} in
  _ ← emit (EvCreateReport args);
  mret (PyPath.of_string (report_of w args)).

(** ** The pandas operations the module calls *)

Module Pandas.

(** [d[k] = v] on a dictionary kept in insertion order *)
Fixpoint dict_set (k : string) (v : pyval) (d : list (string * pyval))
    : list (string * pyval) :=
  match d with
  | [] => [(k, v)]
  | (k', v') :: d' =>
      if String.eqb k k' then (k, v) :: d' else (k', v') :: dict_set k v d'
  end.

(** [{**d1, **d2}] *)
Definition dict_update (d1 d2 : list (string * pyval)) : list (string * pyval) :=
  fold_left (λ acc kv, dict_set kv.1 kv.2 acc) d2 d1.

(** [d.get(k)] *)
Fixpoint dict_get (k : string) (d : list (string * pyval)) : pyval :=
  match d with
  | [] => PNone
  | (k', v) :: d' => if String.eqb k k' then v else dict_get k d'
  end.

Definition is_dict (v : pyval) : bool :=
  match v with PDict _ => true | _ => false end.

(** The key of an entry of a nested dictionary: the path to it, joined by
    ["."]; under an empty path it is the entry's own key. *)
Definition join_key (key_string k : string) : string :=
  if String.eqb key_string "" then k else key_string +:+ "." +:+ k.

(** The flattening of [json_normalize]: a value that is not a dictionary is
    stored under the path that leads to it, a dictionary is walked entry by
    entry, all into the one dictionary [normalized_dict]. *)
Fixpoint normalise_json (data : pyval) (key_string : string)
    (normalized_dict : list (string * pyval)) {struct data}
    : list (string * pyval) :=
  match data with
  | PDict d =>
      (fix entries (d : list (string * pyval)) (acc : list (string * pyval))
         : list (string * pyval) :=
         match d with
         | [] => acc
         | (k, value) :: d' =>
             entries d' (normalise_json value (join_key key_string k) acc)
         end) d normalized_dict
  | _ => dict_set key_string data normalized_dict
  end.

(** One record of [json_normalize]: the entries that are not dictionaries
    first, then the flattened ones. *)
Definition normalise_record (r : list (string * pyval)) : list (string * pyval) :=
  let top_dict := dict_update [] (List.filter (λ kv, negb (is_dict kv.2)) r) in
  let nested_dict :=
    normalise_json (PDict (List.filter (λ kv, is_dict kv.2) r)) "" [] in
  dict_update top_dict nested_dict.

Definition has_key (k : string) (d : list (string * pyval)) : bool :=
  existsb (λ kv, String.eqb k kv.1) d.

(** The column labels of [DataFrame(records)]: the keys in the order they
    first appear. *)
Definition record_columns (records : list (list (string * pyval))) : list string :=
  fold_left (λ cols r,
    fold_left (λ cols kv,
      if PyStr.in_list kv.1 cols then cols else (cols ++ [kv.1])%list) r cols)
    records [].

(** A cell of a record under a label: its value, NaN when it has none. *)
Definition record_cell (r : list (string * pyval)) (c : string) : pyval :=
  if has_key c r then dict_get c r else PNaN.

(** [pd.DataFrame(records)] for a list of dictionaries *)
Definition of_records (records : list (list (string * pyval))) : DataFrame :=
  let cols := record_columns records in
  {| columns := cols;
     rows := map (λ r, map (record_cell r) cols) records |}.

(** [pd.json_normalize(records)] *)
Definition json_normalize (records : list (list (string * pyval))) : DataFrame :=
  of_records (map normalise_record records).

(** The positions of the columns labelled [c]. *)
Fixpoint positions_from (c : string) (cols : list string) (i : nat) : list nat :=
  match cols with
  | [] => []
  | c' :: cols' =>
      (if String.eqb c c' then [i] else []) ++ positions_from c cols' (S i)
  end.

(** [df.loc[:, wanted]]: a [KeyError] when a label is missing; a label that
    several columns carry selects them all. *)
Definition loc_columns (df : DataFrame) (wanted : list string) : Result DataFrame :=
  let missing := List.filter (λ c, negb (PyStr.in_list c (columns df))) wanted in
  match missing with
  | _ :: _ => Raise (KeyError missing)
  | [] =>
      let pos := flat_map (λ c, positions_from c (columns df) O) wanted in
      Ok {| columns := flat_map (λ c, map (λ _, c) (positions_from c (columns df) O)) wanted;
            rows := map (λ r, map (λ i, nth i r PNaN) pos) (rows df) |}
  end.

(** [df[c] = v] for a scalar [v]: the columns labelled [c] are overwritten,
    or a new column is appended. *)
Definition set_column (df : DataFrame) (c : string) (v : pyval) : DataFrame :=
  if PyStr.in_list c (columns df)
  then {| columns := columns df;
          rows := map (λ r, map (λ '(c', x), if String.eqb c c' then v else x)
                                (combine (columns df) r)) (rows df) |}
  else {| columns := columns df ++ [c];
          rows := map (λ r, r ++ [v]) (rows df) |}.

Definition no_dup (l : list string) : bool := bool_decide (NoDup l).

(** [pd.concat([a, b])]: equal column labels stack the rows; otherwise the
    labels are united, absent cells filled with NaN, which pandas refuses
    for labels that are not unique. *)
Definition concat (a b : DataFrame) : Result DataFrame :=
  if bool_decide (columns a = columns b)
  then Ok {| columns := columns a; rows := rows a ++ rows b |}
  else if (no_dup (columns a) && no_dup (columns b))%bool
  then
    let cols := columns a ++ List.filter (λ c, negb (PyStr.in_list c (columns a))) (columns b) in
    let widen (df : DataFrame) :=
      map (λ r, map (λ c, match positions_from c (columns df) O with
                          | i :: _ => nth i r PNaN
                          | [] => PNaN
                          end) cols) (rows df) in
    Ok {| columns := cols; rows := widen a ++ widen b |}
  else Raise InvalidIndexError.

End Pandas.

Definition lift {A} (r : Result A) : M A := λ s, (r, s).

(** ** [get_countries] (lines 49-77) *)

(** [[h_dict.get("ID") for h_dict in h_lst]] *)
Definition hierarchy_ids (h_lst : list HierarchyDict) : list hcell :=
  map (λ h_dict, match ID h_dict with Some s => HStr s | None => HNone end) h_lst.

(** The value the [hierarchies] column holds for an element of a list
    cell: a string as it is, a missing one ([None]) as NaN. *)
Definition stored_cell (h : hcell) : hcell :=
  match h with
  | HStr s => HStr s
  | HNone | HNaN => HNaN
  end.

(** [countries_df.explode("hierarchies")]: a row per element of the list
    cell, one NaN row for an empty list. *)
Definition explode (df : list (string * list hcell)) : CountriesDF :=
  flat_map (λ '(i, h_lst),
    match h_lst with
    | [] => [(i, HNaN)]
    | _ => map (λ h, (i, stored_cell h)) h_lst
    end) df.

(** The body of [get_countries], run on a cache miss.  [json_normalize] of
    an empty ["countries"] array has no columns, so selecting [id] and
    [hierarchies] from it raises. *)
Definition get_countries_body (w : World) (gis : option GIS) : M CountriesDF :=
  match gis with
  | None => raise (AttributeError "properties")
  | Some gis =>
      countries_url ← geoenrichment_url_plus gis "/Geoenrichment/Countries";
      _ ← emit (EvGet gis countries_url []);
      match countries_of w gis countries_url with
      | [] => raise (KeyError ["id"; "hierarchies"])
      | countries =>
          let countries_df := map (λ c, (id c, hierarchy_ids (hierarchies c))) countries in
          mret (explode countries_df)
      end
  end.

(** [@cache]: a result is stored under the session it was computed for and
    returned on every later call with that session; a call that raises
    stores nothing. *)
Definition get_countries (w : World) (gis : option GIS) : M CountriesDF :=
  λ s,
    match match gis with Some g => cache s !! gis_id g | None => None end with
    | Some countries_df => (Ok countries_df, s)
    | None =>
        match get_countries_body w gis s, gis with
        | (Ok countries_df, s'), Some g =>
            (Ok countries_df,
             {| log := log s'; cache := <[gis_id g := countries_df]> (cache s') |})
        | r, _ => r
        end
    end.

(** ** [get_standard_infographics] (lines 80-183) *)

(** [list(countries_df.id)] *)
Definition id_column (countries_df : CountriesDF) : list string :=
  map fst countries_df.

(** [list(countries_df[countries_df["id"] == c]["hierarchies"])] *)
Definition hierarchies_of (countries_df : CountriesDF) (c : string) : list hcell :=
  map snd (List.filter (λ r, String.eqb r.1 c) countries_df).

(** [h in l]: a string or [None] is found by equality; a NaN is never
    found, it is a float that equals nothing, another NaN included, and the
    NaN cells of the column are not one object. *)
Definition hcell_in (h : hcell) (l : list hcell) : bool :=
  match h with
  | HNaN => false
  | _ => bool_decide (h ∈ l)
  end.

(** A hierarchy value is listed in [l]: it is not a NaN and occurs in [l]. *)
Definition listed (h : hcell) (l : list hcell) : Prop := h ≠ HNaN ∧ h ∈ l.

(** Lines 103-110 *)
Definition resolve_hierarchies (countries_df : CountriesDF) (country_iso2 : string)
    (hierarchy : option string) : list hcell :=
  match hierarchy with
  | None => hierarchies_of countries_df country_iso2
  | Some h => [HStr h]
  end.

(** Lines 113-117 *)
Definition invalid_hierarchies (countries_df : CountriesDF) (hrchy_lst : list hcell)
    : list hcell :=
  List.filter (λ h, negb (hcell_in h (hierarchies_of countries_df "US"))) hrchy_lst.

(** [f"{hrchy}"] *)
Definition format_hcell (h : hcell) : string :=
  match h with
  | HStr s => s
  | HNone => "None"
  | HNaN => "nan"
  end.

Definition standard_columns : list string :=
  ["reportID"; "title"; "itemID"; "formats"; "dataVintage"; "countries"; "hierarchy"].

Definition output_columns : list string :=
  ["reportID"; "title"; "itemID"; "formats"; "dataVintage"; "countries"; "hierarchy";
   "category"].

(** Lines 156-173: the table of one hierarchy's reports. *)
Definition standard_frame (reports : list (list (string * pyval))) : Result DataFrame :=
  let std_ig_df := Pandas.json_normalize reports in
  let std_ig_df :=
    {| columns := map (PyStr.replace "metadata." "") (columns std_ig_df);
       rows := rows std_ig_df |} in
  match Pandas.loc_columns std_ig_df standard_columns with
  | Raise e => Raise e
  | Ok std_ig_df => Ok (Pandas.set_column std_ig_df "category" (PStr "standard"))
  end.

Definition infographic_url_tail (country_iso2 : string) (hrchy : hcell) : string :=
  "/Geoenrichment/Infographics/Standard/" +:+ country_iso2 +:+ "/" +:+ format_hcell hrchy.

(** Lines 140-181: the loop over [enumerate(hrchy_lst)], from index [idx]. *)
Fixpoint infographics_loop (w : World) (gis : GIS) (country_iso2 : string)
    (idx : nat) (hrchy_lst : list hcell) (out_df : DataFrame) : M DataFrame :=
  match hrchy_lst with
  | [] => mret out_df
  | hrchy :: rest =>
      infographic_url ←
        geoenrichment_url_plus gis (infographic_url_tail country_iso2 hrchy);
      _ ← emit (EvGet gis infographic_url [("f", "json")]);
      out_df ←
        match reports_of w gis infographic_url with
        | Some (r :: reports) =>
            std_ig_df ← lift (standard_frame (r :: reports));
            if Nat.eqb idx 0 then mret std_ig_df
            else lift (Pandas.concat out_df std_ig_df)
        | _ => mret out_df
        end;
      infographics_loop w gis country_iso2 (S idx) rest out_df
  end.

Definition get_standard_infographics (w : World) (country_iso2 : string)
    (gis : option GIS) (hierarchy : option string) : M DataFrame :=
  gis ← ensure_gis w gis;
  countries_df ← get_countries w (Some gis);
  if negb (PyStr.in_list country_iso2 (id_column countries_df))
  then raise (ValueError (MsgCountryUnavailable country_iso2))
  else
    let hrchy_lst := resolve_hierarchies countries_df country_iso2 hierarchy in
    let invalid_lst := invalid_hierarchies countries_df hrchy_lst in
    match invalid_lst with
    | _ :: _ => raise (ValueError (MsgInvalidHierarchies invalid_lst))
    | [] =>
        let out_df := {| columns := output_columns; rows := [] |} in
        infographics_loop w gis country_iso2 O hrchy_lst out_df
    end.

(** ** [get_organization_infographics] (lines 186-225) *)

(** [any(l)] on a list of strings: some element is not empty. *)
Definition py_any (l : list string) : bool :=
  existsb (λ x, negb (String.eqb x "")) l.

(** Line 203 *)
Definition is_infographic (itm : Item) : bool :=
  py_any (List.filter (λ kw, PyStr.contains "infographic" (PyStr.lower kw))
                      (typeKeywords itm)).

(** Lines 209-216 *)
Definition itm_dict (itm : Item) : list (string * pyval) :=
  [("title", itm_title itm);
   ("itemID", itm_id itm);
   ("itemDescription", itm_description itm);
   ("countries", Pandas.dict_get "countries" (itm_properties itm));
   ("formats", Pandas.dict_get "formats" (itm_properties itm));
   ("owner", itm_owner itm)].

Definition get_organization_infographics (w : World) (gis : option GIS) : M DataFrame :=
  gis ← ensure_gis w gis;
  _ ← emit (EvSearch gis "type:Report Template");
  let itm_lst := search_of w gis "type:Report Template" in
  let ig_itm_lst := List.filter is_infographic itm_lst in
  let ig_dict_lst := map itm_dict ig_itm_lst in
  let cst_ig_df := Pandas.of_records ig_dict_lst in
  mret (Pandas.set_column cst_ig_df "category" (PStr "custom")).

(** The arguments a call hands to [create_report] once its checks pass. *)
Definition report_args (study_areas : StudyAreas) (infographic_id : string)
    (p : Path) (fmt : string) (g : GIS) : ReportArgs :=
  {| ra_study_areas := geometry_dicts (in_geom_of study_areas);
     ra_report := infographic_id;
     ra_export_format := fmt;
     ra_out_folder := PyPath.to_string (PyPath.parent p);
     ra_out_name := resolve_out_name p fmt;
     ra_gis := g |}.

(** The request the loop of [get_standard_infographics] makes for a
    hierarchy, for a service at [u]. *)
Definition infographic_request (g : GIS) (u country_iso2 : string) (hrchy : hcell)
    : Event :=
  EvGet g (u +:+ infographic_url_tail country_iso2 hrchy) [("f", "json")].

(** Line 154, negated: the response at [address] has no ["reports"] or an
    empty list of them. *)
Definition yields_no_reports (w : World) (g : GIS) (address : string) : bool :=
  match reports_of w g address with
  | Some (_ :: _) => false
  | _ => true
  end.

(** The specification's wording of the filter of
    [get_organization_infographics]: some type keyword contains
    ["infographic"], letter case ignored. *)
Definition has_infographic_keyword (itm : Item) : bool :=
  existsb (λ kw, PyStr.contains "infographic" (PyStr.lower kw)) (typeKeywords itm).

(** The keys of [itm_dict], in order. *)
Definition custom_columns : list string :=
  ["title"; "itemID"; "itemDescription"; "countries"; "formats"; "owner"].

(** The row of the custom table made from an item. *)
Definition custom_row (itm : Item) : list pyval :=
  [itm_title itm; itm_id itm; itm_description itm;
   Pandas.dict_get "countries" (itm_properties itm);
   Pandas.dict_get "formats" (itm_properties itm);
   itm_owner itm; PStr "custom"].

(** A session object number [n] whose geoenrichment service is at [u]. *)
Definition configured (n : nat) (u : string) : GIS :=
  {| gis_id := n; geoenrichment := Some {| url := Some u |} |}.

(** ** A small service, used to run the functions on concrete inputs *)

Module Demo.

Definition gis1 : GIS :=
  {| gis_id := 1; geoenrichment := Some {| url := Some "https://ge.example" |} |}.

Definition us_census_report : list (string * pyval) :=
  [("reportID", PStr "census-profile");
   ("metadata",
    PDict [("title", PStr "Census Profile"); ("itemID", PStr "a1b2");
           ("formats", PList [PStr "pdf"; PStr "xlsx"]);
           ("dataVintage", PStr "2024"); ("countries", PStr "US");
           ("hierarchy", PStr "census")])].

Definition template_item (kw : string) : Item :=
  {| itm_title := PStr kw; itm_id := PStr "0f3e"; itm_description := PNone;
     itm_owner := PStr "analyst"; typeKeywords := [kw];
     itm_properties := [("countries", PStr "US")] |}.

(** [US] has the hierarchies [census] and [acs], [CA] has [landscape] and
    [census]; only [US/census] has a report. *)
Definition world (items : list Item) : World :=
  {| active_gis := None;
     countries_of := λ _ _,
       [ {| id := "US"; hierarchies := [ {| ID := Some "census" |}; {| ID := Some "acs" |} ] |};
         {| id := "CA"; hierarchies := [ {| ID := Some "landscape" |}; {| ID := Some "census" |} ] |} ];
     reports_of := λ _ address,
       if String.eqb address
            "https://ge.example/Geoenrichment/Infographics/Standard/US/census"
       then Some [us_census_report] else Some [];
     search_of := λ _ _, items;
     report_of := λ args, ra_out_folder args +:+ "/" +:+ ra_out_name args |}.

Definition start : State := {| log := []; cache := ∅ |}.

Definition square : PyObj := IsGeometry {| JSON := PDict [("rings", PList [])] |}.

(** The countries table of [world]. *)
Definition table : CountriesDF :=
  [("US", HStr "census"); ("US", HStr "acs");
   ("CA", HStr "landscape"); ("CA", HStr "census")].

(** The state after a first [get_countries] with [gis1]: its table is
    memoized. *)
Definition warm : State := (get_countries (world []) (Some gis1) start).2.

End Demo.

(** ** Further notions used to state what the functions do *)

(** The address of the Countries request for a service at [u]. *)
Definition countries_address (u : string) : string :=
  u +:+ "/Geoenrichment/Countries".

(** The number of reports the service lists at [address]. *)
Definition report_count (w : World) (g : GIS) (address : string) : nat :=
  match reports_of w g address with
  | Some reports => length reports
  | None => O
  end.

(** The reports the service lists for the hierarchies of a call, in all. *)
Definition reports_in_all (w : World) (g : GIS) (u country_iso2 : string)
    (hrchy_lst : list hcell) : nat :=
  list_sum (map (λ h, report_count w g (u +:+ infographic_url_tail country_iso2 h))
                hrchy_lst).

(** Lines 154-181 as a function of the table so far and of the
    ["reports"] of one response: the table the loop carries on with. *)
Definition merge_reports (idx : nat) (out_df : DataFrame)
    (reports : option (list (list (string * pyval)))) : Result DataFrame :=
  match reports with
  | Some (r :: reports) =>
      match standard_frame (r :: reports) with
      | Raise e => Raise e
      | Ok std_ig_df =>
          if Nat.eqb idx 0 then Ok std_ig_df else Pandas.concat out_df std_ig_df
      end
  | _ => Ok out_df
  end.

(** A world without a session of its own, whose service lists [countries]
    and has no reports. *)
Definition quiet_world (countries : list CountryEntry) : World :=
  {| active_gis := None;
     countries_of := λ _ _, countries;
     reports_of := λ _ _, None;
     search_of := λ _ _, [];
     report_of := λ args, ra_out_name args |}.

(** ** Properties *)

(** *** The monad *)

Lemma bind_ok {A B} (m : M A) (f : A → M B) s a s' :
  m s = (Ok a, s') → (m ≫= f) s = f a s'.
Proof. intros H. unfold mbind, M_bind. by rewrite H. Qed.

Lemma bind_raise {A B} (m : M A) (f : A → M B) s e s' :
  m s = (Raise e, s') → (m ≫= f) s = (Raise e, s').
Proof. intros H. unfold mbind, M_bind. by rewrite H. Qed.

(** Run the first action of a computation, given what it does. *)
Ltac bind_with H :=
  first [rewrite (bind_ok _ _ _ _ _ H) | rewrite (bind_raise _ _ _ _ _ H)].

(** *** [ensure_gis] *)

(** The check reads the session and touches neither the log nor the cache. *)
Lemma ensure_gis_pure w gis s : (ensure_gis w gis s).2 = s.
Proof.
  unfold ensure_gis.
  destruct gis as [g|]; [|destruct (active_gis w) as [g|]]; simpl; try done;
    destruct (geoenrichment g) as [[[u|]]|]; done.
Qed.

(** A session that passes the check has a geoenrichment address. *)
Lemma ensure_gis_ok w gis s g s' :
  ensure_gis w gis s = (Ok g, s') →
  s' = s ∧ ∃ u, geoenrichment g = Some {| url := Some u |}.
Proof.
  intros H. split.
  - pose proof (ensure_gis_pure w gis s) as Hp. by rewrite H in Hp.
  - unfold ensure_gis in H.
    destruct gis as [g0|]; [|destruct (active_gis w) as [g0|]]; simpl in H; try done;
      destruct (geoenrichment g0) as [[[u|]]|] eqn:Hg; simpl in H;
      unfold mret, M_ret, raise in H; simplify_eq; eauto.
Qed.

(** A failed check leaves the state as it was. *)
Lemma ensure_gis_raise w gis s e s' :
  ensure_gis w gis s = (Raise e, s') → s' = s.
Proof. intros H. pose proof (ensure_gis_pure w gis s) as Hp. by rewrite H in Hp. Qed.

Lemma ensure_gis_configured w n u s :
  ensure_gis w (Some (configured n u)) s = (Ok (configured n u), s).
Proof. reflexivity. Qed.

(** *** [create_infographic] *)

Lemma validate_export_format_pure f s : (validate_export_format f s).2 = s.
Proof.
  destruct f as [f|]; [|done]. unfold validate_export_format.
  unfold mbind, M_bind, assert.
  by destruct (PyStr.in_list _ _).
Qed.

Lemma validate_export_format_ok f s :
  PyStr.in_list (PyStr.lower f) ["xlsx"; "pdf"; "html"] = true →
  validate_export_format (Some f) s = (Ok (PyStr.lower f), s).
Proof.
  intros H. unfold validate_export_format, mbind, M_bind, assert. by rewrite H.
Qed.

Lemma validate_export_format_reject f s :
  PyStr.in_list (PyStr.lower f) ["xlsx"; "pdf"; "html"] = false →
  validate_export_format (Some f) s = (Raise AssertionError, s).
Proof.
  intros H. unfold validate_export_format, mbind, M_bind, assert. by rewrite H.
Qed.

Lemma forallb_is_geometry_map gs : forallb is_geometry (map IsGeometry gs) = true.
Proof. by induction gs. Qed.

Lemma geometry_dicts_map gs :
  geometry_dicts (map IsGeometry gs) = map (λ g, PDict [("geometry", JSON g)]) gs.
Proof. induction gs as [|g gs IH]; [done|]. simpl. by rewrite <- IH. Qed.

(** A call whose session, study areas and format pass the checks and whose
    [out_path] is a [Path] makes exactly one [create_report] call and
    returns its path. *)
Lemma create_infographic_run w study_areas infographic_id p f gis g s :
  ensure_gis w gis s = (Ok g, s) →
  forallb is_geometry (in_geom_of study_areas) = true →
  PyStr.in_list (PyStr.lower f) ["xlsx"; "pdf"; "html"] = true →
  let args := report_args study_areas infographic_id p (PyStr.lower f) g in
  create_infographic w study_areas infographic_id (OutPathObj p) (Some f) gis s
  = (Ok (PyPath.of_string (report_of w args)),
     {| log := log s ++ [EvCreateReport args]; cache := cache s |}).
Proof.
  intros Hg Hgeo Hf args. unfold create_infographic.
  bind_with Hg.
  simpl. rewrite Hgeo. simpl assert.
  unfold mbind at 1, M_bind at 1. simpl.
  bind_with (validate_export_format_ok f s Hf).
  reflexivity.
Qed.

(** A call with a plain string as [out_path] raises, whatever else it is
    given, and leaves the state (so the log) as it found it. *)
Lemma create_infographic_str_raises w study_areas infographic_id str f gis s :
  ∃ e, create_infographic w study_areas infographic_id (OutStr str) f gis s
       = (Raise e, s).
Proof.
  unfold create_infographic.
  destruct (ensure_gis w gis s) as [[g|e] s'] eqn:Hg.
  - apply ensure_gis_ok in Hg as Hs. destruct Hs as [-> _].
    bind_with Hg.
    simpl.
    destruct (forallb is_geometry (in_geom_of study_areas)); simpl assert;
      unfold mbind at 1, M_bind at 1; simpl; [|eauto].
    pose proof (validate_export_format_pure f s) as Hp.
    destruct (validate_export_format f s) as [[f'|e] s'] eqn:Hv; simpl in Hp; subst s'.
    + bind_with Hv. unfold mbind, M_bind, raise. eauto.
    + bind_with Hv. eauto.
  - apply ensure_gis_raise in Hg as Hs. subst s'.
    bind_with Hg. eauto.
Qed.

(** C2 (as the code behaves).  With [out_path = Path("report.PDF")] and
    format ["pdf"] the file name handed to [create_report] is
    ["report.PDF.pdf"]: the suffix ["PDF"] is compared, case and all, with
    the lower-cased format, so a second extension is appended.  With
    [out_path = Path("report")] and format ["xlsx"] the name is
    ["report.xlsx"]. *)
Theorem C2_out_name_extension w n u gs infographic_id s :
  (∃ args,
     create_infographic w (AreaList (map IsGeometry gs)) infographic_id
       (OutPathObj (PyPath.of_string "report.PDF")) (Some "pdf")
       (Some (configured n u)) s
     = (Ok (PyPath.of_string (report_of w args)),
        {| log := log s ++ [EvCreateReport args]; cache := cache s |})
     ∧ ra_export_format args = "pdf"
     ∧ ra_out_name args = "report.PDF.pdf")
  ∧
  (∃ args,
     create_infographic w (AreaList (map IsGeometry gs)) infographic_id
       (OutPathObj (PyPath.of_string "report")) (Some "xlsx")
       (Some (configured n u)) s
     = (Ok (PyPath.of_string (report_of w args)),
        {| log := log s ++ [EvCreateReport args]; cache := cache s |})
     ∧ ra_export_format args = "xlsx"
     ∧ ra_out_name args = "report.xlsx").
Proof.
  split; eexists;
    (split;
     [apply create_infographic_run;
      [apply ensure_gis_configured|apply forallb_is_geometry_map|reflexivity]
     |split; reflexivity]).
Qed.

(** C7.  With [out_path = Path("report.htm")] and format ["html"] the file
    name handed to [create_report] is ["report.htm"]: nothing is appended. *)
Theorem C7_htm_html_preserved w n u gs infographic_id s :
  ∃ args,
    create_infographic w (AreaList (map IsGeometry gs)) infographic_id
      (OutPathObj (PyPath.of_string "report.htm")) (Some "html")
      (Some (configured n u)) s
    = (Ok (PyPath.of_string (report_of w args)),
       {| log := log s ++ [EvCreateReport args]; cache := cache s |})
    ∧ ra_export_format args = "html"
    ∧ ra_out_name args = "report.htm"
    ∧ ra_out_name args = PyPath.name (PyPath.of_string "report.htm").
Proof.
  eexists; split.
  - apply create_infographic_run;
      [apply ensure_gis_configured|apply forallb_is_geometry_map|reflexivity].
  - repeat split; reflexivity.
Qed.

(** C8.  A format string whose lower-case form is none of ["xlsx"],
    ["pdf"], ["html"] makes [create_infographic] raise with the state, and
    so the log of remote calls, unchanged: [create_report] is not reached;
    with a valid session and study areas the exception is the failed
    assertion.  A format whose lower-case form is one of the three, in any
    letter case, passes the validation: with a valid session and study
    areas the call goes past line 265, so that with a [Path] it calls
    [create_report] with that lower-case form and returns, and with a plain
    string it gets as far as the attribute error of the path. *)
Theorem C8_export_format_validation f :
  (PyStr.in_list (PyStr.lower f) ["xlsx"; "pdf"; "html"] = false →
   ∀ w study_areas infographic_id out_path gis s,
     (∃ e, create_infographic w study_areas infographic_id out_path (Some f) gis s
           = (Raise e, s))
     ∧ (∀ g, ensure_gis w gis s = (Ok g, s) →
             forallb is_geometry (in_geom_of study_areas) = true →
             create_infographic w study_areas infographic_id out_path (Some f) gis s
             = (Raise AssertionError, s)))
  ∧
  (PyStr.in_list (PyStr.lower f) ["xlsx"; "pdf"; "html"] = true →
   (∀ s, validate_export_format (Some f) s = (Ok (PyStr.lower f), s))
   ∧ ∀ w study_areas infographic_id gis g s,
       ensure_gis w gis s = (Ok g, s) →
       forallb is_geometry (in_geom_of study_areas) = true →
       (∀ p,
          let args := report_args study_areas infographic_id p (PyStr.lower f) g in
          create_infographic w study_areas infographic_id (OutPathObj p) (Some f) gis s
          = (Ok (PyPath.of_string (report_of w args)),
             {| log := log s ++ [EvCreateReport args]; cache := cache s |})
          ∧ ra_export_format args = PyStr.lower f)
       ∧ (∀ str,
            create_infographic w study_areas infographic_id (OutStr str) (Some f) gis s
            = (Raise (AttributeError "parent"), s))).
Proof.
  split.
  - intros H w study_areas infographic_id out_path gis s.
    pose proof (validate_export_format_reject f s H) as Hv.
    assert (Hrun : ∀ g, ensure_gis w gis s = (Ok g, s) →
              forallb is_geometry (in_geom_of study_areas) = true →
              create_infographic w study_areas infographic_id out_path (Some f) gis s
              = (Raise AssertionError, s)).
    { intros g Hg Hgeo. unfold create_infographic.
      bind_with Hg. simpl. rewrite Hgeo. simpl assert.
      unfold mbind at 1, M_bind at 1. simpl.
      bind_with Hv; done. }
    split; [|exact Hrun].
    destruct (ensure_gis w gis s) as [[g|e] s'] eqn:Hg.
    + apply ensure_gis_ok in Hg as Hs. destruct Hs as [-> _].
      destruct (forallb is_geometry (in_geom_of study_areas)) eqn:Hgeo; [eauto|].
      unfold create_infographic. bind_with Hg. simpl.
      rewrite Hgeo. simpl assert. unfold mbind at 1, M_bind at 1. simpl. eauto.
    + apply ensure_gis_raise in Hg as Hs. subst s'.
      unfold create_infographic. bind_with Hg. eauto.
  - intros H. split; [intros s; by apply validate_export_format_ok|].
    intros w study_areas infographic_id gis g s Hg Hgeo. split.
    + intros p args. split; [by apply create_infographic_run|done].
    + intros str. unfold create_infographic. bind_with Hg. simpl. rewrite Hgeo.
      simpl assert. unfold mbind at 1, M_bind at 1. simpl.
      bind_with (validate_export_format_ok f s H). reflexivity.
Qed.

Lemma C8_export_format_validation_witness :
  (∃ e, create_infographic (Demo.world []) (OneArea Demo.square) "census-profile"
          (OutPathObj (PyPath.of_string "report.docx")) (Some "docx")
          (Some Demo.gis1) Demo.start
        = (Raise e, Demo.start))
  ∧ (let args := report_args (OneArea Demo.square) "census-profile"
                   (PyPath.of_string "report.pdf") "pdf" Demo.gis1 in
     create_infographic (Demo.world []) (OneArea Demo.square) "census-profile"
       (OutPathObj (PyPath.of_string "report.pdf")) (Some "PDF")
       (Some Demo.gis1) Demo.start
     = (Ok (PyPath.of_string (report_of (Demo.world []) args)),
        {| log := log Demo.start ++ [EvCreateReport args];
           cache := cache Demo.start |})
     ∧ ra_export_format args = "pdf").
Proof.
  split.
  - apply (proj1 (C8_export_format_validation "docx")). reflexivity.
  - apply (proj1 (proj2 (proj2 (C8_export_format_validation "PDF") eq_refl)
                          (Demo.world []) (OneArea Demo.square) "census-profile"
                          (Some Demo.gis1) Demo.gis1 Demo.start eq_refl eq_refl)
             (PyPath.of_string "report.pdf")).
Defined.

(** C9, as amended.  A call that passes [out_path] as a plain string never
    returns: it raises and leaves the log of remote calls as it found it,
    so [create_report] is not reached; when the session, the study areas
    and the format pass their checks, which come first, the exception is
    the [AttributeError] of [out_path.parent]; when one of them fails, it is
    that check's own exception.  A call that returns was given a [Path]. *)
Theorem C9_str_out_path_fails w study_areas infographic_id f gis s :
  (∀ str, ∃ e,
     create_infographic w study_areas infographic_id (OutStr str) f gis s
     = (Raise e, s))
  ∧
  (∀ str g fmt,
     ensure_gis w gis s = (Ok g, s) →
     forallb is_geometry (in_geom_of study_areas) = true →
     validate_export_format f s = (Ok fmt, s) →
     create_infographic w study_areas infographic_id (OutStr str) f gis s
     = (Raise (AttributeError "parent"), s))
  ∧
  (∀ out_path p s',
     create_infographic w study_areas infographic_id out_path f gis s = (Ok p, s') →
     ∃ q, out_path = OutPathObj q)
  ∧
  (∀ str,
     (∀ e s', ensure_gis w gis s = (Raise e, s') →
        create_infographic w study_areas infographic_id (OutStr str) f gis s
        = (Raise e, s))
     ∧ (∀ g, ensure_gis w gis s = (Ok g, s) →
          forallb is_geometry (in_geom_of study_areas) = false →
          create_infographic w study_areas infographic_id (OutStr str) f gis s
          = (Raise AssertionError, s))
     ∧ (∀ g e, ensure_gis w gis s = (Ok g, s) →
          forallb is_geometry (in_geom_of study_areas) = true →
          validate_export_format f s = (Raise e, s) →
          create_infographic w study_areas infographic_id (OutStr str) f gis s
          = (Raise e, s))).
Proof.
  split; [|split; [|split]].
  - intros str. apply create_infographic_str_raises.
  - intros str g fmt Hg Hgeo Hv. unfold create_infographic.
    bind_with Hg. simpl. rewrite Hgeo. simpl assert.
    unfold mbind at 1, M_bind at 1. simpl.
    bind_with Hv; done.
  - intros [str|q] p s' H; [|eauto].
    destruct (create_infographic_str_raises w study_areas infographic_id str f gis s)
      as [e He].
    congruence.
  - intros str. split; [|split].
    + intros e s' Hg. apply ensure_gis_raise in Hg as Hs. subst s'.
      unfold create_infographic. by bind_with Hg.
    + intros g Hg Hgeo. unfold create_infographic. bind_with Hg. simpl.
      by rewrite Hgeo.
    + intros g e Hg Hgeo Hv. unfold create_infographic. bind_with Hg. simpl.
      rewrite Hgeo. simpl assert. unfold mbind at 1, M_bind at 1. simpl.
      by bind_with Hv.
Qed.

(** C9 as first worded does not hold: a plain string with the format
    ["docx"] fails the format assertion of line 265, before the path is
    looked at, and the exception is no attribute error. *)
Lemma C9_str_out_path_other_error :
  create_infographic (Demo.world []) (OneArea Demo.square) "census-profile"
    (OutStr "report.docx") (Some "docx") (Some Demo.gis1) Demo.start
  = (Raise AssertionError, Demo.start)
  ∧ ¬ (∃ attr s',
         create_infographic (Demo.world []) (OneArea Demo.square) "census-profile"
           (OutStr "report.docx") (Some "docx") (Some Demo.gis1) Demo.start
         = (Raise (AttributeError attr), s')).
Proof.
  split; [reflexivity|]. intros (attr & s' & H). vm_compute in H. discriminate H.
Qed.

Lemma C9_str_out_path_fails_witness :
  create_infographic (Demo.world []) (OneArea Demo.square) "census-profile"
    (OutStr "report.pdf") (Some "pdf") (Some Demo.gis1) Demo.start
  = (Raise (AttributeError "parent"), Demo.start).
Proof.
  apply (proj1 (proj2 (C9_str_out_path_fails (Demo.world []) (OneArea Demo.square)
                         "census-profile" (Some "pdf") (Some Demo.gis1) Demo.start))
           "report.pdf" Demo.gis1 "pdf"); reflexivity.
Defined.

(** *** [get_countries] *)

Lemma in_list_elem_of x l : PyStr.in_list x l = true ↔ x ∈ l.
Proof.
  unfold PyStr.in_list. rewrite existsb_exists, list_elem_of_In. split.
  - intros (y & Hy & Heq). apply String.eqb_eq in Heq. by subst.
  - intros H. exists x. split; [done|apply String.eqb_refl].
Qed.

Lemma in_list_not_elem_of x l : PyStr.in_list x l = false ↔ x ∉ l.
Proof.
  rewrite <- in_list_elem_of. destruct (PyStr.in_list x l); split; try done.
Qed.

(** A cache hit returns the stored table and does nothing else. *)
Lemma get_countries_hit w g s countries_df :
  cache s !! gis_id g = Some countries_df →
  get_countries w (Some g) s = (Ok countries_df, s).
Proof. intros H. unfold get_countries. by rewrite H. Qed.

(** What a call leaves in the log: nothing, or the one Countries request. *)
Lemma get_countries_log w g s r s1 :
  get_countries w (Some g) s = (r, s1) →
  cache s !! gis_id g = None →
  (s1 = s ∧ ∃ e, r = Raise e)
  ∨ ∃ u, geoenrichment g = Some {| url := Some u |}
         ∧ log s1 = log s ++ [EvGet g (u +:+ "/Geoenrichment/Countries") []].
Proof.
  intros H Hmiss. unfold get_countries in H. rewrite Hmiss in H.
  unfold get_countries_body, geoenrichment_url_plus in H.
  destruct (geoenrichment g) as [[[u|]]|] eqn:Hge;
    unfold mbind, M_bind, raise, mret, M_ret, emit in H; simpl in H.
  - right. exists u. split; [done|].
    destruct (countries_of w g _); simplify_eq; done.
  - left. simplify_eq. eauto.
  - left. simplify_eq. eauto.
Qed.

(** A call that returns a table leaves it in the cache under the session. *)
Lemma get_countries_stores w g s countries_df s1 :
  get_countries w (Some g) s = (Ok countries_df, s1) →
  cache s1 !! gis_id g = Some countries_df.
Proof.
  intros H. unfold get_countries in H.
  destruct (cache s !! gis_id g) as [df|] eqn:Hc.
  - by simplify_eq.
  - destruct (get_countries_body w (Some g) s) as [[df|e] s'] eqn:Hb;
      simplify_eq. simpl. apply lookup_insert_eq.
Qed.

(** C6.  When a call of [get_countries] with a session returns a table, a
    second call with the same session object returns that table and leaves
    the state as it is, whatever the service would answer by then: it adds
    no request to the log.  The first call adds at most one request, so the
    two calls together fetch at most once. *)
Theorem C6_get_countries_memoized w w' g g' s countries_df s1 :
  get_countries w (Some g) s = (Ok countries_df, s1) →
  gis_id g' = gis_id g →
  get_countries w' (Some g') s1 = (Ok countries_df, s1)
  ∧ (log s1 = log s ∨ ∃ address, log s1 = log s ++ [EvGet g address []])
  ∧ (length (log (get_countries w' (Some g') s1).2) ≤ length (log s) + 1)%nat.
Proof.
  intros H Hid.
  assert (Hsecond : get_countries w' (Some g') s1 = (Ok countries_df, s1)).
  { apply get_countries_hit. rewrite Hid. by eapply get_countries_stores. }
  assert (Hlog : log s1 = log s ∨ ∃ address, log s1 = log s ++ [EvGet g address []]).
  { destruct (cache s !! gis_id g) as [df|] eqn:Hc.
    - rewrite (get_countries_hit _ _ _ _ Hc) in H. simplify_eq. by left.
    - destruct (get_countries_log _ _ _ _ _ H Hc) as [[_ [e ?]]|(u & _ & Hl)];
        [done|eauto]. }
  split; [done|]. split; [done|].
  rewrite Hsecond. simpl.
  destruct Hlog as [->|[address ->]]; [lia|].
  rewrite length_app. simpl. lia.
Qed.

Lemma C6_get_countries_memoized_witness :
  ∃ countries_df s1,
    get_countries (Demo.world []) (Some Demo.gis1) Demo.start = (Ok countries_df, s1)
    ∧ get_countries (Demo.world []) (Some Demo.gis1) s1 = (Ok countries_df, s1)
    ∧ length (log s1) = 1%nat.
Proof.
  eexists _, _. split; [reflexivity|]. split; [|reflexivity].
  apply (C6_get_countries_memoized (Demo.world []) (Demo.world []) Demo.gis1 Demo.gis1
           Demo.start); reflexivity.
Defined.

(** *** [get_standard_infographics] *)

Lemma hcell_in_listed h l : hcell_in h l = true ↔ listed h l.
Proof.
  unfold hcell_in, listed. destruct h; rewrite ?bool_decide_eq_true.
  - split; [by intros ?|by intros [_ ?]].
  - split; [by intros ?|by intros [_ ?]].
  - split; [done|]. by intros [Hne _].
Qed.



(** A pass of the loop over hierarchies that all come back without reports
    makes one request per hierarchy and returns the table it was given. *)
Lemma infographics_loop_no_reports w g u country_iso2 hrchy_lst :
  geoenrichment g = Some {| url := Some u |} →
  forallb (λ h, yields_no_reports w g (u +:+ infographic_url_tail country_iso2 h))
          hrchy_lst = true →
  ∀ idx out_df s,
    infographics_loop w g country_iso2 idx hrchy_lst out_df s
    = (Ok out_df,
       {| log := log s ++ map (infographic_request g u country_iso2) hrchy_lst;
          cache := cache s |}).
Proof.
  intros Hu. induction hrchy_lst as [|h rest IH]; intros Hall idx out_df s.
  - simpl. rewrite app_nil_r. by destruct s.
  - simpl in Hall. apply andb_true_iff in Hall as [Hh Hrest].
    cbn [infographics_loop]. unfold geoenrichment_url_plus. rewrite Hu. simpl.
    unfold mbind at 1, M_bind at 1, mret at 1, M_ret at 1.
    unfold mbind at 1, M_bind at 1, emit at 1.
    unfold yields_no_reports in Hh.
    assert (Hstep :
      (match reports_of w g (u +:+ infographic_url_tail country_iso2 h) with
       | Some (r :: reports) =>
           std_ig_df ← lift (standard_frame (r :: reports));
           if Nat.eqb idx 0 then mret std_ig_df
           else lift (Pandas.concat out_df std_ig_df)
       | _ => mret out_df
       end : M DataFrame) = mret out_df).
    { destruct (reports_of w g _) as [[|r reports]|]; done. }
    rewrite Hstep. unfold mbind at 1, M_bind at 1, mret at 1, M_ret at 1.
    rewrite (IH Hrest). simpl. unfold infographic_request at 2.
    by rewrite <- app_assoc.
Qed.

Section ValidSession.

(** A call of [get_standard_infographics] whose session passes
    [ensure_gis]. *)
Context (w : World) (gis : option GIS) (g : GIS) (s : State).
Context (country_iso2 : string) (hierarchy : option string).
Hypothesis Hsession : ensure_gis w gis s = (Ok g, s).

(** The call up to the validation of the country code. *)
Lemma get_standard_infographics_checks countries_df s1 :
  get_countries w (Some g) s = (Ok countries_df, s1) →
  get_standard_infographics w country_iso2 gis hierarchy s
  = (if negb (PyStr.in_list country_iso2 (id_column countries_df))
     then raise (ValueError (MsgCountryUnavailable country_iso2))
     else
       let hrchy_lst := resolve_hierarchies countries_df country_iso2 hierarchy in
       match invalid_hierarchies countries_df hrchy_lst with
       | _ :: _ =>
           raise (ValueError (MsgInvalidHierarchies
                                (invalid_hierarchies countries_df hrchy_lst)))
       | [] =>
           infographics_loop w g country_iso2 O hrchy_lst
             {| columns := output_columns; rows := [] |}
       end) s1.
Proof.
  intros Hc. unfold get_standard_infographics.
  bind_with Hsession. bind_with Hc; done.
Qed.

(** A country code that the table does not list is refused right after the
    table has been obtained; on a session whose table is not memoized yet,
    obtaining it is one Countries request. *)
Lemma unknown_country_refused countries_df s1 :
  get_countries w (Some g) s = (Ok countries_df, s1) →
  country_iso2 ∉ id_column countries_df →
  get_standard_infographics w country_iso2 gis hierarchy s
  = (Raise (ValueError (MsgCountryUnavailable country_iso2)), s1).
Proof.
  intros Hc Hno. rewrite (get_standard_infographics_checks _ _ Hc).
  apply in_list_not_elem_of in Hno. by rewrite Hno.
Qed.

(** C3.  On a session whose country table is memoized, a country code that
    the table does not list makes [get_standard_infographics] raise the
    [ValueError] for that code, and the state is left as it was: no request
    of any kind is added to the log. *)
Theorem C3_unknown_country_rejected countries_df :
  cache s !! gis_id g = Some countries_df →
  country_iso2 ∉ id_column countries_df →
  get_standard_infographics w country_iso2 gis hierarchy s
  = (Raise (ValueError (MsgCountryUnavailable country_iso2)), s).
Proof.
  intros Hc Hno. apply (unknown_country_refused countries_df); [|done].
  by apply get_countries_hit.
Qed.


(** C4.  A call that passes the checks of the session, the country code and
    the hierarchies, and for which every hierarchy comes back with no
    reports (no ["reports"] entry, or an empty one), returns a table with no
    rows and the eight columns [reportID], [title], [itemID], [formats],
    [dataVintage], [countries], [hierarchy], [category]; it has made one
    request per hierarchy. *)
Theorem C4_empty_table_keeps_columns u countries_df s1 :
  geoenrichment g = Some {| url := Some u |} →
  get_countries w (Some g) s = (Ok countries_df, s1) →
  country_iso2 ∈ id_column countries_df →
  let hrchy_lst := resolve_hierarchies countries_df country_iso2 hierarchy in
  invalid_hierarchies countries_df hrchy_lst = [] →
  forallb (λ h, yields_no_reports w g (u +:+ infographic_url_tail country_iso2 h))
          hrchy_lst = true →
  get_standard_infographics w country_iso2 gis hierarchy s
  = (Ok {| columns := ["reportID"; "title"; "itemID"; "formats"; "dataVintage";
                       "countries"; "hierarchy"; "category"];
           rows := [] |},
     {| log := log s1 ++ map (infographic_request g u country_iso2) hrchy_lst;
        cache := cache s1 |}).
Proof.
  intros Hu Hc Hin hrchy_lst Hvalid Hnone.
  rewrite (get_standard_infographics_checks _ _ Hc).
  apply in_list_elem_of in Hin. rewrite Hin. simpl.
  fold hrchy_lst. rewrite Hvalid.
  by apply infographics_loop_no_reports.
Qed.

End ValidSession.

Lemma C3_unknown_country_rejected_witness :
  get_standard_infographics (Demo.world []) "ZZ" (Some Demo.gis1) None Demo.warm
  = (Raise (ValueError (MsgCountryUnavailable "ZZ")), Demo.warm).
Proof.
  apply (C3_unknown_country_rejected (Demo.world []) (Some Demo.gis1) Demo.gis1
           Demo.warm "ZZ" None eq_refl Demo.table).
  - vm_compute. reflexivity.
  - apply in_list_not_elem_of. vm_compute. reflexivity.
Defined.

(** The same call on a session whose table is not memoized yet: the one
    Countries request is made, then the country code is refused. *)
Example unknown_country_cold_cache :
  get_standard_infographics (Demo.world []) "ZZ" (Some Demo.gis1) None Demo.start
  = (Raise (ValueError (MsgCountryUnavailable "ZZ")), Demo.warm)
  ∧ log Demo.warm
    = [EvGet Demo.gis1 "https://ge.example/Geoenrichment/Countries" []].
Proof. split; reflexivity. Qed.


(** The reference is ["US"], not the country asked for: for ["CA"] its own
    hierarchy [landscape] is refused, and [acs], which only ["US"] has, is
    let through to the request. *)
Example reference_country_is_US :
  (get_standard_infographics (Demo.world []) "CA" (Some Demo.gis1)
     (Some "landscape") Demo.start).1
  = Raise (ValueError (MsgInvalidHierarchies [HStr "landscape"]))
  ∧ log (get_standard_infographics (Demo.world []) "CA" (Some Demo.gis1)
           (Some "acs") Demo.start).2
    = [EvGet Demo.gis1 "https://ge.example/Geoenrichment/Countries" [];
       infographic_request Demo.gis1 "https://ge.example" "CA" (HStr "acs")].
Proof. split; reflexivity. Qed.

(** A country without hierarchies has the one hierarchy NaN, which is not
    valid even when ["US"] has none either: the call raises, naming it, and
    requests nothing for it. *)
Example nan_hierarchy_is_invalid :
  get_standard_infographics
    (quiet_world [ {| id := "US"; hierarchies := [] |};
                   {| id := "CA"; hierarchies := [] |} ])
    "CA" (Some Demo.gis1) None Demo.start
  = (Raise (ValueError (MsgInvalidHierarchies [HNaN])),
     {| log := [EvGet Demo.gis1 "https://ge.example/Geoenrichment/Countries" []];
        cache := {[ 1%nat := [("US", HNaN); ("CA", HNaN)] ]} |}).
Proof. reflexivity. Qed.

Lemma C4_empty_table_keeps_columns_witness :
  get_standard_infographics (Demo.world []) "US" (Some Demo.gis1) (Some "acs")
    Demo.start
  = (Ok {| columns := ["reportID"; "title"; "itemID"; "formats"; "dataVintage";
                       "countries"; "hierarchy"; "category"];
           rows := [] |},
     {| log := log Demo.warm
               ++ [infographic_request Demo.gis1 "https://ge.example" "US" (HStr "acs")];
        cache := cache Demo.warm |}).
Proof.
  apply (C4_empty_table_keeps_columns (Demo.world []) (Some Demo.gis1) Demo.gis1
           Demo.start "US" (Some "acs") eq_refl "https://ge.example" Demo.table
           Demo.warm).
  - reflexivity.
  - reflexivity.
  - apply in_list_elem_of. reflexivity.
  - reflexivity.
  - reflexivity.
Defined.

(** *** [get_organization_infographics] *)

Lemma contains_nonempty sub s :
  sub ≠ "" → PyStr.contains sub s = true → s ≠ "".
Proof. intros Hsub H ->. by destruct sub. Qed.

(** [any] over the matching keywords is true exactly when there is one: a
    keyword that contains ["infographic"] is not the empty string. *)
Lemma is_infographic_keyword itm : is_infographic itm = has_infographic_keyword itm.
Proof.
  unfold is_infographic, has_infographic_keyword, py_any.
  induction (typeKeywords itm) as [|kw kws IH]; [done|].
  simpl. destruct (PyStr.contains "infographic" (PyStr.lower kw)) eqn:Hkw; [|done].
  simpl. destruct (String.eqb kw "") eqn:Hempty; [|done].
  apply String.eqb_eq in Hempty. subst kw. done.
Qed.

Lemma record_columns_itm_dicts itms cols :
  cols = custom_columns →
  fold_left (λ cols r,
    fold_left (λ cols kv,
      if PyStr.in_list kv.1 cols then cols else cols ++ [kv.1]) r cols)
    (map itm_dict itms) cols = custom_columns.
Proof. intros ->. induction itms as [|itm itms IH]; [done|]. exact IH. Qed.

(** The table built from the dictionaries of a list of items. *)
Lemma of_records_itm_dicts itms :
  Pandas.of_records (map itm_dict itms)
  = {| columns := match itms with [] => [] | _ => custom_columns end;
       rows := map (λ itm, removelast (custom_row itm)) itms |}.
Proof.
  destruct itms as [|itm itms]; [done|].
  unfold Pandas.of_records, Pandas.record_columns.
  assert (Hcols :
    fold_left (λ cols r,
      fold_left (λ cols kv,
        if PyStr.in_list kv.1 cols then cols else cols ++ [kv.1]) r cols)
      (map itm_dict (itm :: itms)) [] = custom_columns).
  { simpl. by apply record_columns_itm_dicts. }
  rewrite Hcols. f_equal.
  rewrite map_map. apply map_ext. intros i. reflexivity.
Qed.

(** What a call with a valid session returns: the table of the items that
    pass the filter of line 203. *)
Lemma get_organization_infographics_run w gis g s :
  ensure_gis w gis s = (Ok g, s) →
  get_organization_infographics w gis s
  = (Ok {| columns :=
             match List.filter has_infographic_keyword
                     (search_of w g "type:Report Template") with
             | [] => ["category"]
             | _ => custom_columns ++ ["category"]
             end;
           rows := map custom_row
                     (List.filter has_infographic_keyword
                        (search_of w g "type:Report Template")) |},
     {| log := log s ++ [EvSearch g "type:Report Template"]; cache := cache s |}).
Proof.
  intros Hg. unfold get_organization_infographics.
  bind_with Hg.
  unfold mbind, M_bind, emit, mret, M_ret. f_equal. f_equal.
  rewrite (filter_ext is_infographic has_infographic_keyword is_infographic_keyword).
  rewrite of_records_itm_dicts.
  destruct (List.filter has_infographic_keyword _) as [|itm itms]; [done|].
  unfold Pandas.set_column. simpl PyStr.in_list. cbv iota.
  cbn [columns rows]. f_equal. rewrite map_map. reflexivity.
Qed.

(** C5.  With a valid session, [get_organization_infographics] searches
    once for ["type:Report Template"] and returns one row per searched item
    that has a type keyword containing ["infographic"] when lower-cased, in
    the order of the search, and no other row.  An item with the keyword
    ["Infographic-Template"] passes; an item whose only keyword is
    ["template"] does not. *)
Theorem C5_organization_infographics_filter w gis g s :
  ensure_gis w gis s = (Ok g, s) →
  (∃ df,
     get_organization_infographics w gis s
     = (Ok df,
        {| log := log s ++ [EvSearch g "type:Report Template"]; cache := cache s |})
     ∧ rows df = map custom_row
                   (List.filter has_infographic_keyword
                      (search_of w g "type:Report Template")))
  ∧ (∀ itm, "Infographic-Template" ∈ typeKeywords itm →
            has_infographic_keyword itm = true ∧ is_infographic itm = true)
  ∧ (∀ itm, typeKeywords itm = ["template"] →
            has_infographic_keyword itm = false ∧ is_infographic itm = false).
Proof.
  intros Hg. split; [|split].
  - eexists. split; [by apply get_organization_infographics_run|done].
  - intros itm Hkw. rewrite is_infographic_keyword.
    assert (has_infographic_keyword itm = true); [|done].
    unfold has_infographic_keyword. apply existsb_exists.
    exists "Infographic-Template". split; [by apply list_elem_of_In|reflexivity].
  - intros itm Hkw. rewrite is_infographic_keyword.
    unfold has_infographic_keyword. rewrite Hkw. split; reflexivity.
Qed.

Lemma C5_organization_infographics_filter_witness :
  ∃ df,
    get_organization_infographics
      (Demo.world [Demo.template_item "Infographic-Template";
                   Demo.template_item "template"])
      (Some Demo.gis1) Demo.start
    = (Ok df,
       {| log := [EvSearch Demo.gis1 "type:Report Template"]; cache := ∅ |})
    ∧ rows df = [custom_row (Demo.template_item "Infographic-Template")].
Proof.
  apply (proj1 (C5_organization_infographics_filter
                  (Demo.world [Demo.template_item "Infographic-Template";
                               Demo.template_item "template"])
                  (Some Demo.gis1) Demo.gis1 Demo.start eq_refl)).
Defined.

Lemma filter_none {A} (P : A → bool) l :
  forallb (λ x, negb (P x)) l = true → List.filter P l = [].
Proof.
  induction l as [|x l IH]; [done|]. simpl.
  destruct (P x); simpl; [done|]. exact IH.
Qed.

(** C10.  With a valid session, when no searched item has a type keyword
    containing ["infographic"] when lower-cased, the table returned has no
    rows and the single column [category]: [title], [itemID],
    [itemDescription], [countries], [formats] and [owner] are not among its
    columns. *)
Theorem C10_no_match_only_category w gis g s :
  ensure_gis w gis s = (Ok g, s) →
  forallb (λ itm, negb (has_infographic_keyword itm))
          (search_of w g "type:Report Template") = true →
  get_organization_infographics w gis s
  = (Ok {| columns := ["category"]; rows := [] |},
     {| log := log s ++ [EvSearch g "type:Report Template"]; cache := cache s |})
  ∧ ∀ df s', get_organization_infographics w gis s = (Ok df, s') →
             ∀ c, c ∈ custom_columns → c ∉ columns df.
Proof.
  intros Hg Hnone.
  assert (Hrun :
    get_organization_infographics w gis s
    = (Ok {| columns := ["category"]; rows := [] |},
       {| log := log s ++ [EvSearch g "type:Report Template"]; cache := cache s |})).
  { rewrite (get_organization_infographics_run _ _ _ _ Hg).
    by rewrite (filter_none _ _ Hnone). }
  split; [exact Hrun|].
  intros df s' Hdf c Hc. rewrite Hrun in Hdf. simplify_eq. simpl.
  intros Hin. apply list_elem_of_singleton in Hin. subst c.
  apply in_list_elem_of in Hc. discriminate Hc.
Qed.

Lemma C10_no_match_only_category_witness :
  get_organization_infographics (Demo.world [Demo.template_item "template"])
    (Some Demo.gis1) Demo.start
  = (Ok {| columns := ["category"]; rows := [] |},
     {| log := [EvSearch Demo.gis1 "type:Report Template"]; cache := ∅ |}).
Proof.
  apply (proj1 (C10_no_match_only_category
                  (Demo.world [Demo.template_item "template"])
                  (Some Demo.gis1) Demo.gis1 Demo.start eq_refl eq_refl)).
Defined.

(** With a matching item the table has the six documented columns and
    [category]. *)
Example custom_table_columns :
  (get_organization_infographics
     (Demo.world [Demo.template_item "Infographic-Template"])
     (Some Demo.gis1) Demo.start).1
  = Ok {| columns := ["title"; "itemID"; "itemDescription"; "countries"; "formats";
                      "owner"; "category"];
          rows := [[PStr "Infographic-Template"; PStr "0f3e"; PNone; PStr "US"; PNone;
                    PStr "analyst"; PStr "custom"]] |}.
Proof. reflexivity. Qed.

(** ** Further properties *)

(** *** Sessions *)

(** X1.  [ensure_gis] returns a session exactly when it is the one passed in, or,
    when none is passed, the ambient [active_gis], and that session has a
    geoenrichment address; it leaves the state alone.  A session passed in
    hides the ambient one. *)
Theorem ensure_gis_returns_iff w gis s g s' :
  ensure_gis w gis s = (Ok g, s')
  ↔ s' = s
    ∧ (gis = Some g ∨ (gis = None ∧ active_gis w = Some g))
    ∧ ∃ u, geoenrichment g = Some {| url := Some u |}.
Proof.
  split.
  - intros H. destruct (ensure_gis_ok _ _ _ _ _ H) as [-> Hu].
    repeat split; [|done].
    unfold ensure_gis in H.
    destruct gis as [g0|]; [|destruct (active_gis w) as [g0|] eqn:Ha];
      simpl in H; try done;
      destruct (geoenrichment g0) as [[[u|]]|]; simpl in H;
      unfold mret, M_ret, raise in H; simplify_eq; auto.
  - intros (-> & Hsrc & u & Hu). unfold ensure_gis.
    destruct Hsrc as [->|[-> ->]]; simpl; by rewrite Hu.
Qed.

(** X2.  Without a usable session none of the three public functions reaches
    the service: each raises the [ValueError] of [ensure_gis] and leaves the
    log and the cache as they were. *)
Theorem no_session_no_request w gis s e s' :
  ensure_gis w gis s = (Raise e, s') →
  (∃ m, e = ValueError m)
  ∧ (∀ country_iso2 hierarchy,
       get_standard_infographics w country_iso2 gis hierarchy s = (Raise e, s))
  ∧ get_organization_infographics w gis s = (Raise e, s)
  ∧ (∀ study_areas infographic_id out_path export_format,
       create_infographic w study_areas infographic_id out_path export_format gis s
       = (Raise e, s)).
Proof.
  intros H. apply ensure_gis_raise in H as Hs. subst s'. split; [|split; [|split]].
  - unfold ensure_gis in H.
    destruct gis as [g0|]; [|destruct (active_gis w) as [g0|]];
      simpl in H; unfold raise in H;
      try (destruct (geoenrichment g0) as [[[u|]]|]; simpl in H;
           unfold mret, M_ret, raise in H);
      simplify_eq; eauto.
  - intros. unfold get_standard_infographics. by bind_with H.
  - unfold get_organization_infographics. by bind_with H.
  - intros. unfold create_infographic. by bind_with H.
Qed.

Lemma no_session_no_request_witness :
  get_organization_infographics (quiet_world []) None Demo.start
  = (Raise (ValueError MsgNoGIS), Demo.start).
Proof.
  apply (no_session_no_request (quiet_world []) None Demo.start
           (ValueError MsgNoGIS) Demo.start eq_refl).
Defined.

(** *** The countries table *)

Lemma get_countries_body_cache w gis s :
  cache (get_countries_body w gis s).2 = cache s.
Proof.
  unfold get_countries_body. destruct gis as [g|]; [|done].
  unfold geoenrichment_url_plus.
  destruct (geoenrichment g) as [[[u|]]|]; try done.
  unfold mbind, M_bind, mret, M_ret, emit, raise. simpl.
  by destruct (countries_of w g _).
Qed.

(** What a call that misses the cache does for a session with an address:
    one request, then either the error for an empty answer or the exploded
    table, stored under the session. *)
Lemma get_countries_miss w g u s :
  geoenrichment g = Some {| url := Some u |} →
  cache s !! gis_id g = None →
  get_countries w (Some g) s
  = match countries_of w g (countries_address u) with
    | [] =>
        (Raise (KeyError ["id"; "hierarchies"]),
         {| log := log s ++ [EvGet g (countries_address u) []]; cache := cache s |})
    | countries =>
        let countries_df :=
          explode (map (λ c, (id c, hierarchy_ids (hierarchies c))) countries) in
        (Ok countries_df,
         {| log := log s ++ [EvGet g (countries_address u) []];
            cache := <[gis_id g := countries_df]> (cache s) |})
    end.
Proof.
  intros Hu Hmiss. unfold get_countries. rewrite Hmiss.
  unfold get_countries_body, geoenrichment_url_plus. rewrite Hu.
  unfold mbind, M_bind, mret, M_ret, emit, raise, countries_address. simpl.
  by destruct (countries_of w g _).
Qed.

Lemma elem_of_explode c x (df : list (string * list hcell)) :
  (c, x) ∈ explode df
  ↔ ∃ h_lst, (c, h_lst) ∈ df
             ∧ ((∃ h, h ∈ h_lst ∧ stored_cell h = x) ∨ (h_lst = [] ∧ x = HNaN)).
Proof.
  unfold explode. rewrite list_elem_of_In, in_flat_map. split.
  - intros ([c' h_lst] & Hin & Hx). apply list_elem_of_In in Hin.
    destruct h_lst as [|h0 rest].
    + apply list_elem_of_In, list_elem_of_singleton in Hx. simplify_eq.
      exists []. auto.
    + apply in_map_iff in Hx as (h & Heq & Hh). simplify_eq.
      exists (h0 :: rest). split; [done|]. left. exists h.
      split; [by apply list_elem_of_In|done].
  - intros (h_lst & Hin & Hx). exists (c, h_lst).
    split; [by apply list_elem_of_In|].
    destruct Hx as [(h & Hh & <-)|[-> ->]].
    + destruct h_lst as [|h0 rest]; [by apply elem_of_nil in Hh|].
      apply in_map_iff. exists h. split; [done|]. by apply list_elem_of_In.
    + simpl. auto.
Qed.

(** X3.  The table a fetch returns pairs a country with a hierarchy ID exactly
    when the service lists that ID under that country, and it has a row for
    every country of the answer, also for one with no hierarchies, and for
    no other. *)
Theorem get_countries_table_pairs w g u s countries_df s1 :
  geoenrichment g = Some {| url := Some u |} →
  cache s !! gis_id g = None →
  get_countries w (Some g) s = (Ok countries_df, s1) →
  let countries := countries_of w g (countries_address u) in
  (∀ c h, (c, HStr h) ∈ countries_df
          ↔ ∃ entry, entry ∈ countries ∧ id entry = c
                     ∧ {| ID := Some h |} ∈ hierarchies entry)
  ∧ (∀ c, c ∈ id_column countries_df ↔ ∃ entry, entry ∈ countries ∧ id entry = c)
  ∧ log s1 = log s ++ [EvGet g (countries_address u) []].
Proof.
  intros Hu Hmiss H countries. rewrite (get_countries_miss _ _ _ _ Hu Hmiss) in H.
  fold countries in H. clearbody countries.
  assert (countries_df
          = explode (map (λ c, (id c, hierarchy_ids (hierarchies c))) countries)
          ∧ log s1 = log s ++ [EvGet g (countries_address u) []]) as [-> Hlog].
  { destruct countries; [done|]. cbv zeta in H. by injection H as <- <-. }
  clear H. split; [|split; [|done]].
  - intros c h. rewrite elem_of_explode. split.
    + intros (h_lst & Hin & Hx).
      apply list_elem_of_fmap in Hin as (entry & Heq & Hentry). simplify_eq.
      destruct Hx as [(x & Hx & Hstored)|[_ ?]]; [|done].
      exists entry. split; [done|]. split; [done|].
      unfold hierarchy_ids in Hx.
      apply list_elem_of_fmap in Hx as ([[i|]] & Heq & Hh); simplify_eq/=. done.
    + intros (entry & Hentry & <- & Hh).
      exists (hierarchy_ids (hierarchies entry)). split.
      * apply list_elem_of_fmap. by exists entry.
      * left. exists (HStr h). split; [|done].
        unfold hierarchy_ids. apply list_elem_of_fmap.
        by exists {| ID := Some h |}.
  - intros c. unfold id_column. rewrite list_elem_of_fmap. split.
    + intros ([c' x] & -> & Hin). simpl. apply elem_of_explode in Hin as (h_lst & Hin & _).
      apply list_elem_of_fmap in Hin as (entry & Heq & Hentry). simplify_eq.
      by exists entry.
    + intros (entry & Hentry & <-).
      destruct (hierarchy_ids (hierarchies entry)) as [|h0 hs] eqn:Hids.
      * exists (id entry, HNaN). split; [done|]. apply elem_of_explode.
        exists []. split; [|auto]. apply list_elem_of_fmap. exists entry. by rewrite Hids.
      * exists (id entry, stored_cell h0). split; [done|]. apply elem_of_explode.
        exists (h0 :: hs). split.
        -- apply list_elem_of_fmap. exists entry. by rewrite Hids.
        -- left. exists h0. split; [apply list_elem_of_here|done].
Qed.

Lemma get_countries_table_pairs_witness :
  log Demo.warm
  = log Demo.start
    ++ [EvGet Demo.gis1 (countries_address "https://ge.example") []].
Proof.
  apply (proj2 (proj2 (get_countries_table_pairs (Demo.world []) Demo.gis1
                         "https://ge.example" Demo.start Demo.table Demo.warm
                         eq_refl eq_refl eq_refl))).
Defined.

(** X4.  A call of [get_countries], with any session and whatever it returns,
    keeps every table that is memoized: none is dropped and none replaced. *)
Theorem get_countries_keeps_memoized w gis s r s1 k countries_df :
  get_countries w gis s = (r, s1) →
  cache s !! k = Some countries_df →
  cache s1 !! k = Some countries_df.
Proof.
  intros H Hk. unfold get_countries in H.
  destruct gis as [g|].
  - destruct (cache s !! gis_id g) as [df|] eqn:Hc; [by simplify_eq|].
    pose proof (get_countries_body_cache w (Some g) s) as Hb.
    destruct (get_countries_body w (Some g) s) as [[df|e] s'];
      simpl in Hb; simplify_eq; simpl; [|by rewrite Hb].
    rewrite Hb. rewrite lookup_insert_ne; [done|]. intros <-. congruence.
  - pose proof (get_countries_body_cache w None s) as Hb.
    destruct (get_countries_body w None s) as [[df|e] s'];
      simpl in Hb; simplify_eq; by rewrite Hb.
Qed.

Lemma get_countries_keeps_memoized_witness :
  cache (get_countries (quiet_world []) (Some (configured 2 "https://other")) Demo.warm).2
    !! 1%nat
  = Some Demo.table.
Proof.
  apply (get_countries_keeps_memoized (quiet_world [])
           (Some (configured 2 "https://other")) Demo.warm
           (get_countries (quiet_world []) (Some (configured 2 "https://other"))
              Demo.warm).1 _ 1%nat Demo.table).
  - by destruct (get_countries _ _ _).
  - vm_compute. reflexivity.
Defined.

(** X5.  A call of [get_countries] that raises memoizes nothing: the cache is as
    it was and has no table for the session, so the next call with it goes
    to the service again. *)
Theorem get_countries_failure_not_memoized w g s e s1 :
  get_countries w (Some g) s = (Raise e, s1) →
  cache s1 = cache s
  ∧ cache s1 !! gis_id g = None
  ∧ ∀ w', get_countries w' (Some g) s1
          = match get_countries_body w' (Some g) s1 with
            | (Ok countries_df, s2) =>
                (Ok countries_df,
                 {| log := log s2; cache := <[gis_id g := countries_df]> (cache s2) |})
            | r => r
            end.
Proof.
  intros H. unfold get_countries in H.
  destruct (cache s !! gis_id g) as [df|] eqn:Hc; [done|].
  pose proof (get_countries_body_cache w (Some g) s) as Hb.
  destruct (get_countries_body w (Some g) s) as [[df|e'] s'];
    simpl in Hb; simplify_eq.
  assert (Hnone : cache s1 !! gis_id g = None) by (by rewrite Hb).
  split; [done|]. split; [done|].
  intros w'. unfold get_countries. rewrite Hnone.
  by destruct (get_countries_body w' (Some g) s1) as [[df|e'] s'].
Qed.

Lemma get_countries_failure_not_memoized_witness :
  cache (get_countries (quiet_world []) (Some Demo.gis1) Demo.start).2 !! 1%nat = None.
Proof.
  apply (get_countries_failure_not_memoized (quiet_world []) Demo.gis1 Demo.start
           (KeyError ["id"; "hierarchies"])
           (get_countries (quiet_world []) (Some Demo.gis1) Demo.start).2).
  reflexivity.
Defined.

(** X6.  [get_countries] does not check its session the way [ensure_gis] does:
    with no session, or one that is not memoized and has no geoenrichment
    service or no address for it, it fails on the attribute access or on the
    concatenation, not with a [ValueError], and before any request. *)
Theorem get_countries_unchecked_session w s :
  get_countries w None s = (Raise (AttributeError "properties"), s)
  ∧ (∀ g, cache s !! gis_id g = None →
          geoenrichment g = None →
          get_countries w (Some g) s = (Raise (AttributeError "url"), s))
  ∧ (∀ g, cache s !! gis_id g = None →
          geoenrichment g = Some {| url := None |} →
          get_countries w (Some g) s = (Raise TypeError, s)).
Proof.
  split; [done|].
  split; intros g Hc Hg; unfold get_countries, get_countries_body,
    geoenrichment_url_plus; rewrite Hc, Hg; reflexivity.
Qed.

Lemma get_countries_unchecked_session_witness :
  get_countries (Demo.world []) (Some {| gis_id := 7; geoenrichment := None |})
    Demo.start
  = (Raise (AttributeError "url"), Demo.start).
Proof.
  apply (proj1 (proj2 (get_countries_unchecked_session (Demo.world []) Demo.start))
           {| gis_id := 7; geoenrichment := None |}); reflexivity.
Defined.

(** *** The loop over hierarchies *)

(** One turn of the loop for a session with an address: the request, then
    the table merged from the response, or its error. *)
Lemma infographics_loop_step w g u country_iso2 idx h rest out_df s :
  geoenrichment g = Some {| url := Some u |} →
  infographics_loop w g country_iso2 idx (h :: rest) out_df s
  = let s' := {| log := log s ++ [infographic_request g u country_iso2 h];
                 cache := cache s |} in
    match merge_reports idx out_df
            (reports_of w g (u +:+ infographic_url_tail country_iso2 h)) with
    | Ok out_df' => infographics_loop w g country_iso2 (S idx) rest out_df' s'
    | Raise e => (Raise e, s')
    end.
Proof.
  intros Hu. cbn [infographics_loop]. unfold geoenrichment_url_plus. rewrite Hu.
  cbn [url]. unfold mbind at 1, M_bind at 1, mret at 1, M_ret at 1.
  unfold mbind at 1, M_bind at 1, emit at 1.
  unfold merge_reports, infographic_request.
  destruct (reports_of w g _) as [[|r reports]|]; try reflexivity.
  unfold mbind at 1, M_bind at 1. unfold mbind at 1, M_bind at 1, lift at 1.
  destruct (standard_frame (r :: reports)) as [std|e]; [|reflexivity].
  destruct (Nat.eqb idx 0); [reflexivity|].
  unfold lift. by destruct (Pandas.concat out_df std).
Qed.

(** The loop never touches the cache, and what it adds to the log is the
    requests for a leading part of the hierarchies, in order: for all of
    them when it returns. *)
Lemma infographics_loop_trace w g u country_iso2 hrchy_lst :
  geoenrichment g = Some {| url := Some u |} →
  ∀ idx out_df s r s',
    infographics_loop w g country_iso2 idx hrchy_lst out_df s = (r, s') →
    cache s' = cache s
    ∧ ∃ k, (k ≤ length hrchy_lst)%nat
           ∧ log s' = log s ++ map (infographic_request g u country_iso2)
                                   (take k hrchy_lst)
           ∧ (∀ df, r = Ok df → k = length hrchy_lst).
Proof.
  intros Hu. induction hrchy_lst as [|h rest IH]; intros idx out_df s r s' H.
  - simpl in H. unfold mret, M_ret in H. simplify_eq. split; [done|].
    exists O. simpl. rewrite app_nil_r. auto.
  - rewrite (infographics_loop_step _ _ _ _ _ _ _ _ _ Hu) in H. cbv zeta in H.
    destruct (merge_reports idx out_df _) as [out_df'|e].
    + apply IH in H as (Hc & k & Hk & Hlog & Hok). split; [done|].
      exists (S k). simpl in *. split; [lia|]. split.
      * rewrite Hlog. by rewrite <- app_assoc.
      * intros df Hdf. by rewrite (Hok df Hdf).
    + simplify_eq. split; [done|]. exists 1%nat. simpl. split; [lia|].
      by destruct rest.
Qed.

Lemma of_records_rows_length records :
  length (rows (Pandas.of_records records)) = length records.
Proof. unfold Pandas.of_records. simpl. apply length_map. Qed.

Lemma loc_columns_rows_length df wanted df' :
  Pandas.loc_columns df wanted = Ok df' → length (rows df') = length (rows df).
Proof.
  unfold Pandas.loc_columns. destruct (List.filter _ wanted); [|done].
  intros H. simplify_eq. simpl. apply length_map.
Qed.

Lemma set_column_rows_length df c v :
  length (rows (Pandas.set_column df c v)) = length (rows df).
Proof.
  unfold Pandas.set_column. destruct (PyStr.in_list c (columns df)); simpl;
    apply length_map.
Qed.

Lemma concat_rows_length a b c :
  Pandas.concat a b = Ok c →
  length (rows c) = (length (rows a) + length (rows b))%nat.
Proof.
  unfold Pandas.concat. destruct (bool_decide _).
  - intros H. simplify_eq. simpl. apply length_app.
  - destruct (_ && _)%bool; [|done]. intros H. simplify_eq. simpl.
    by rewrite length_app, !length_map.
Qed.

(** The table of one response has a row per report. *)
Lemma standard_frame_rows_length reports df :
  standard_frame reports = Ok df → length (rows df) = length reports.
Proof.
  unfold standard_frame. intros H.
  destruct (Pandas.loc_columns _ standard_columns) as [df'|e] eqn:Hloc; [|done].
  simplify_eq. rewrite set_column_rows_length.
  rewrite (loc_columns_rows_length _ _ _ Hloc). cbn [rows].
  unfold Pandas.json_normalize. rewrite of_records_rows_length. apply length_map.
Qed.

Lemma merge_reports_rows_length idx out_df reports out_df' :
  (idx = O → rows out_df = []) →
  merge_reports idx out_df reports = Ok out_df' →
  length (rows out_df')
  = (length (rows out_df)
     + match reports with Some l => length l | None => O end)%nat.
Proof.
  intros Hfirst. unfold merge_reports.
  destruct reports as [[|r reports]|]; try (intros H; simplify_eq; simpl; lia).
  destruct (standard_frame (r :: reports)) as [std|e] eqn:Hstd; [|done].
  apply standard_frame_rows_length in Hstd.
  destruct idx as [|idx]; simpl Nat.eqb; cbv iota.
  - intros H. simplify_eq. rewrite (Hfirst eq_refl). simpl. done.
  - intros H. apply concat_rows_length in H. rewrite H, Hstd. done.
Qed.

Lemma infographics_loop_rows_length w g u country_iso2 hrchy_lst :
  geoenrichment g = Some {| url := Some u |} →
  ∀ idx out_df s df s',
    (idx = O → rows out_df = []) →
    infographics_loop w g country_iso2 idx hrchy_lst out_df s = (Ok df, s') →
    length (rows df)
    = (length (rows out_df) + reports_in_all w g u country_iso2 hrchy_lst)%nat.
Proof.
  intros Hu. unfold reports_in_all.
  induction hrchy_lst as [|h rest IH]; intros idx out_df s df s' Hfirst H.
  - simpl in H. unfold mret, M_ret in H. simplify_eq. simpl. lia.
  - rewrite (infographics_loop_step _ _ _ _ _ _ _ _ _ Hu) in H. cbv zeta in H.
    destruct (merge_reports idx out_df _) as [out_df'|e] eqn:Hm; [|done].
    apply (merge_reports_rows_length _ _ _ _ Hfirst) in Hm.
    apply IH in H; [|done]. rewrite H, Hm. simpl. unfold report_count. lia.
Qed.

(** *** [get_standard_infographics], beyond its checks *)

Lemma hierarchies_of_nil countries_df c :
  hierarchies_of countries_df c = [] ↔ c ∉ id_column countries_df.
Proof.
  unfold hierarchies_of, id_column.
  induction countries_df as [|[c' x] rest IH]; simpl.
  - split; [intros _; apply not_elem_of_nil|done].
  - rewrite not_elem_of_cons. destruct (String.eqb_spec c' c) as [->|Hne]; simpl.
    + split; [done|]. by intros [? _].
    + rewrite IH. split; [intros ?; split; congruence|by intros [_ ?]].
Qed.




Lemma filter_nothing_listed (l : list hcell) :
  List.filter (λ h, negb (hcell_in h [])) l = l.
Proof.
  induction l as [|h rest IH]; [done|]. cbn [List.filter]. rewrite IH.
  destruct (hcell_in h []) eqn:Hin; [|done].
  apply hcell_in_listed in Hin as [_ Hin]. by apply elem_of_nil in Hin.
Qed.

(** X8.  When the service lists no country ["US"], every call whose country code
    is known fails the hierarchy check, naming all the hierarchies it was
    to request: there is then no input for which the function returns. *)
Theorem no_US_rows_no_result w country_iso2 gis hierarchy g s countries_df s1 :
  ensure_gis w gis s = (Ok g, s) →
  get_countries w (Some g) s = (Ok countries_df, s1) →
  "US" ∉ id_column countries_df →
  country_iso2 ∈ id_column countries_df →
  let hrchy_lst := resolve_hierarchies countries_df country_iso2 hierarchy in
  hrchy_lst ≠ []
  ∧ get_standard_infographics w country_iso2 gis hierarchy s
    = (Raise (ValueError (MsgInvalidHierarchies hrchy_lst)), s1).
Proof.
  intros Hg Hc Hus Hin hrchy_lst.
  assert (Hne : hrchy_lst ≠ []).
  { unfold hrchy_lst, resolve_hierarchies. destruct hierarchy as [h|]; [done|].
    intros Hnil. by apply hierarchies_of_nil in Hnil. }
  split; [done|].
  rewrite (get_standard_infographics_checks w gis g s country_iso2 hierarchy Hg _ _ Hc).
  apply in_list_elem_of in Hin. rewrite Hin. simpl. fold hrchy_lst.
  assert (Hall : invalid_hierarchies countries_df hrchy_lst = hrchy_lst).
  { unfold invalid_hierarchies. apply hierarchies_of_nil in Hus. rewrite Hus.
    apply filter_nothing_listed. }
  rewrite Hall. by destruct hrchy_lst.
Qed.

Lemma no_US_rows_no_result_witness :
  get_standard_infographics
    (quiet_world [ {| id := "CA"; hierarchies := [ {| ID := Some "landscape" |} ] |} ])
    "CA" (Some Demo.gis1) None Demo.start
  = (Raise (ValueError (MsgInvalidHierarchies [HStr "landscape"])),
     {| log := [EvGet Demo.gis1 (countries_address "https://ge.example") []];
        cache := {[ 1%nat := [("CA", HStr "landscape")] ]} |}).
Proof.
  refine (proj2 (no_US_rows_no_result
                   (quiet_world [ {| id := "CA";
                                     hierarchies := [ {| ID := Some "landscape" |} ] |} ])
                   "CA" (Some Demo.gis1) None Demo.gis1 Demo.start
                   [("CA", HStr "landscape")] _ eq_refl eq_refl _ _)).
  - apply in_list_not_elem_of. reflexivity.
  - apply in_list_elem_of. reflexivity.
Defined.

(** X9.  Whatever a call does after it has the countries table, it leaves the
    cache as [get_countries] left it, and the requests it adds to the log
    are those for a leading part of its hierarchies, one each and in order;
    when it returns a table, for all of them. *)
Theorem standard_infographics_requests
    w country_iso2 gis hierarchy g u s countries_df s1 r s2 :
  ensure_gis w gis s = (Ok g, s) →
  geoenrichment g = Some {| url := Some u |} →
  get_countries w (Some g) s = (Ok countries_df, s1) →
  get_standard_infographics w country_iso2 gis hierarchy s = (r, s2) →
  let hrchy_lst := resolve_hierarchies countries_df country_iso2 hierarchy in
  cache s2 = cache s1
  ∧ ∃ k, (k ≤ length hrchy_lst)%nat
         ∧ log s2 = log s1 ++ map (infographic_request g u country_iso2)
                                  (take k hrchy_lst)
         ∧ (∀ out_df, r = Ok out_df → k = length hrchy_lst).
Proof.
  intros Hg Hu Hc H hrchy_lst.
  rewrite (get_standard_infographics_checks w gis g s country_iso2 hierarchy Hg _ _ Hc)
    in H.
  assert (Hstop : ∀ e, (r, s2) = (Raise e, s1) →
            cache s2 = cache s1
            ∧ ∃ k, (k ≤ length hrchy_lst)%nat
                   ∧ log s2 = log s1 ++ map (infographic_request g u country_iso2)
                                            (take k hrchy_lst)
                   ∧ (∀ out_df, r = Ok out_df → k = length hrchy_lst)).
  { intros e He. simplify_eq. split; [done|]. exists O.
    rewrite take_0. simpl. rewrite app_nil_r. split; [lia|]. split; done. }
  destruct (negb (PyStr.in_list country_iso2 (id_column countries_df)));
    [by eapply Hstop|].
  cbv zeta in H. fold hrchy_lst in H.
  destruct (invalid_hierarchies countries_df hrchy_lst); [|by eapply Hstop].
  by eapply infographics_loop_trace.
Qed.

Lemma standard_infographics_requests_witness :
  ∃ k, (k ≤ 2)%nat
       ∧ log (get_standard_infographics (Demo.world []) "US" (Some Demo.gis1) None
                Demo.start).2
         = log Demo.warm
           ++ map (infographic_request Demo.gis1 "https://ge.example" "US")
                  (take k [HStr "census"; HStr "acs"])
       ∧ (∀ out_df,
            (get_standard_infographics (Demo.world []) "US" (Some Demo.gis1) None
               Demo.start).1 = Ok out_df → k = 2%nat).
Proof.
  refine (proj2 (standard_infographics_requests (Demo.world []) "US" (Some Demo.gis1)
                   None Demo.gis1 "https://ge.example" Demo.start Demo.table Demo.warm
                   _ _ eq_refl eq_refl eq_refl _)).
  by destruct (get_standard_infographics _ _ _ _ _).
Defined.

(** X10.  The table a call returns has exactly one row for each report the
    service lists under the hierarchies of the call. *)
Theorem standard_infographics_row_per_report
    w country_iso2 gis hierarchy g u s countries_df s1 out_df s2 :
  ensure_gis w gis s = (Ok g, s) →
  geoenrichment g = Some {| url := Some u |} →
  get_countries w (Some g) s = (Ok countries_df, s1) →
  get_standard_infographics w country_iso2 gis hierarchy s = (Ok out_df, s2) →
  length (rows out_df)
  = reports_in_all w g u country_iso2
      (resolve_hierarchies countries_df country_iso2 hierarchy).
Proof.
  intros Hg Hu Hc H.
  rewrite (get_standard_infographics_checks w gis g s country_iso2 hierarchy Hg _ _ Hc)
    in H.
  destruct (negb (PyStr.in_list country_iso2 (id_column countries_df))); [done|].
  cbv zeta in H.
  destruct (invalid_hierarchies countries_df _); [|done].
  by apply (infographics_loop_rows_length _ _ _ _ _ Hu) in H.
Qed.

Lemma standard_infographics_row_per_report_witness :
  match (get_standard_infographics (Demo.world []) "US" (Some Demo.gis1) None
           Demo.start).1 with
  | Ok out_df => length (rows out_df) = 1%nat
  | Raise _ => False
  end.
Proof.
  destruct (get_standard_infographics (Demo.world []) "US" (Some Demo.gis1) None
              Demo.start) as [[out_df|e] s2] eqn:H; simpl.
  - rewrite (standard_infographics_row_per_report (Demo.world []) "US"
               (Some Demo.gis1) None Demo.gis1 "https://ge.example" Demo.start
               Demo.table Demo.warm out_df s2 eq_refl eq_refl eq_refl H).
    reflexivity.
  - vm_compute in H. discriminate H.
Defined.

(** X11.  After a call that got as far as the countries table, whatever it then
    did, the table is memoized for the session: [get_countries] returns it
    without a request, whatever the service would answer by then. *)
Theorem standard_infographics_leaves_table_memoized
    w w' country_iso2 gis hierarchy g s countries_df s1 r s2 :
  ensure_gis w gis s = (Ok g, s) →
  get_countries w (Some g) s = (Ok countries_df, s1) →
  get_standard_infographics w country_iso2 gis hierarchy s = (r, s2) →
  get_countries w' (Some g) s2 = (Ok countries_df, s2).
Proof.
  intros Hg Hc H.
  destruct (proj2 (ensure_gis_ok _ _ _ _ _ Hg)) as [u Hu].
  apply get_countries_hit.
  apply get_countries_stores in Hc as Hstored.
  rewrite (get_standard_infographics_checks w gis g s country_iso2 hierarchy Hg _ _ Hc)
    in H.
  destruct (negb (PyStr.in_list country_iso2 (id_column countries_df)));
    [unfold raise in H; by simplify_eq|].
  cbv zeta in H.
  destruct (invalid_hierarchies countries_df _);
    [|unfold raise in H; by simplify_eq].
  apply (infographics_loop_trace _ _ _ _ _ Hu), proj1 in H.
  by rewrite H.
Qed.

Lemma standard_infographics_leaves_table_memoized_witness :
  get_countries (quiet_world []) (Some Demo.gis1)
    (get_standard_infographics (Demo.world []) "CA" (Some Demo.gis1) None
       Demo.start).2
  = (Ok Demo.table,
     (get_standard_infographics (Demo.world []) "CA" (Some Demo.gis1) None
        Demo.start).2).
Proof.
  apply (standard_infographics_leaves_table_memoized (Demo.world []) (quiet_world [])
           "CA" (Some Demo.gis1) None Demo.gis1 Demo.start Demo.table Demo.warm
           (get_standard_infographics (Demo.world []) "CA" (Some Demo.gis1) None
              Demo.start).1 _ eq_refl eq_refl).
  by destruct (get_standard_infographics _ _ _ _ _).
Defined.

(** *** [create_infographic], beyond the format and the path *)

(** X12.  A call either raises before the service is reached, and then
    the state is as it was, or it gets to [create_report], which it calls
    exactly once: only when the session, the geometries, the format and a
    [Path] all pass, for the report asked for, with a lower-case format out
    of the three, one study area per geometry given and the file name
    resolved from the path.  The cache is never touched.  (What becomes of
    the call after [create_report] was reached is the service's doing.) *)
Theorem create_infographic_outcomes
    w study_areas infographic_id out_path export_format gis s :
  (∃ e, create_infographic w study_areas infographic_id out_path export_format gis s
        = (Raise e, s))
  ∨ (∃ g f p,
       ensure_gis w gis s = (Ok g, s)
       ∧ export_format = Some f ∧ out_path = OutPathObj p
       ∧ forallb is_geometry (in_geom_of study_areas) = true
       ∧ PyStr.in_list (PyStr.lower f) ["xlsx"; "pdf"; "html"] = true
       ∧ let args := report_args study_areas infographic_id p (PyStr.lower f) g in
         length (ra_study_areas args) = length (in_geom_of study_areas)
         ∧ ra_report args = infographic_id
         ∧ ra_out_name args = resolve_out_name p (PyStr.lower f)
         ∧ (create_infographic w study_areas infographic_id out_path export_format
              gis s).2
           = {| log := log s ++ [EvCreateReport args]; cache := cache s |}).
Proof.
  destruct out_path as [str|p];
    [left; apply create_infographic_str_raises|].
  destruct (ensure_gis w gis s) as [[g|e] s'] eqn:Hg.
  2: { left. exists e. apply ensure_gis_raise in Hg as Hs. subst s'.
       unfold create_infographic. by bind_with Hg. }
  apply ensure_gis_ok in Hg as Hs. destruct Hs as [-> _].
  destruct (forallb is_geometry (in_geom_of study_areas)) eqn:Hgeo.
  2: { left. exists AssertionError. unfold create_infographic. bind_with Hg.
       simpl. rewrite Hgeo. reflexivity. }
  destruct export_format as [f|].
  2: { left. exists (AttributeError "lower"). unfold create_infographic.
       bind_with Hg. simpl. rewrite Hgeo. reflexivity. }
  destruct (PyStr.in_list (PyStr.lower f) ["xlsx"; "pdf"; "html"]) eqn:Hf.
  - right. exists g, f, p. repeat (split; [done|]). cbv zeta. split.
    + unfold report_args. cbn [ra_study_areas]. unfold geometry_dicts.
      clear -Hgeo. induction (in_geom_of study_areas) as [|o l IH]; [done|].
      simpl in Hgeo. apply andb_true_iff in Hgeo as [Ho Hl].
      destruct o; [|done]. simpl. by rewrite (IH Hl).
    + split; [done|]. split; [done|].
      by rewrite (create_infographic_run w study_areas infographic_id p f gis g s
                    Hg Hgeo Hf).
  - left. exists AssertionError. unfold create_infographic. bind_with Hg.
    simpl. rewrite Hgeo. simpl assert. unfold mbind at 1, M_bind at 1. simpl.
    by bind_with (validate_export_format_reject f s Hf).
Qed.

(** X13.  A study area that is not a [Geometry], alone or anywhere in the list,
    makes the call raise before the service is reached; with a valid
    session the exception is the failed assertion, whatever the format and
    the path are. *)
Theorem non_geometry_rejected
    w study_areas infographic_id out_path export_format gis s :
  forallb is_geometry (in_geom_of study_areas) = false →
  (∃ e, create_infographic w study_areas infographic_id out_path export_format gis s
        = (Raise e, s))
  ∧ (∀ g, ensure_gis w gis s = (Ok g, s) →
          create_infographic w study_areas infographic_id out_path export_format gis s
          = (Raise AssertionError, s)).
Proof.
  intros Hgeo.
  assert (Hrun : ∀ g, ensure_gis w gis s = (Ok g, s) →
            create_infographic w study_areas infographic_id out_path export_format
              gis s = (Raise AssertionError, s)).
  { intros g Hg. unfold create_infographic. bind_with Hg. simpl. by rewrite Hgeo. }
  split; [|exact Hrun].
  destruct (ensure_gis w gis s) as [[g|e] s'] eqn:Hg.
  - apply ensure_gis_ok in Hg as Hs. destruct Hs as [-> _]. eauto.
  - apply ensure_gis_raise in Hg as Hs. subst s'.
    exists e. unfold create_infographic. by bind_with Hg.
Qed.

Lemma non_geometry_rejected_witness :
  create_infographic (Demo.world [])
    (AreaList [Demo.square; NotGeometry (PStr "POINT (1 2)")]) "census-profile"
    (OutPathObj (PyPath.of_string "report.pdf")) (Some "pdf") (Some Demo.gis1)
    Demo.start
  = (Raise AssertionError, Demo.start).
Proof.
  apply (proj2 (non_geometry_rejected (Demo.world [])
                  (AreaList [Demo.square; NotGeometry (PStr "POINT (1 2)")])
                  "census-profile" (OutPathObj (PyPath.of_string "report.pdf"))
                  (Some "pdf") (Some Demo.gis1) Demo.start eq_refl)
           Demo.gis1 eq_refl).
Defined.

(** X14.  An empty list of study areas passes the geometry check ([all] of an
    empty list holds): the service is called with no study area. *)
Theorem empty_study_areas_accepted w infographic_id p f gis g s :
  ensure_gis w gis s = (Ok g, s) →
  PyStr.in_list (PyStr.lower f) ["xlsx"; "pdf"; "html"] = true →
  ∃ args,
    create_infographic w (AreaList []) infographic_id (OutPathObj p) (Some f) gis s
    = (Ok (PyPath.of_string (report_of w args)),
       {| log := log s ++ [EvCreateReport args]; cache := cache s |})
    ∧ ra_study_areas args = [].
Proof.
  intros Hg Hf. eexists. split; [by apply create_infographic_run|done].
Qed.

Lemma empty_study_areas_accepted_witness :
  ∃ args,
    create_infographic (Demo.world []) (AreaList []) "census-profile"
      (OutPathObj (PyPath.of_string "out/report.pdf")) (Some "PDF") (Some Demo.gis1)
      Demo.start
    = (Ok (PyPath.of_string (report_of (Demo.world []) args)),
       {| log := log Demo.start ++ [EvCreateReport args]; cache := cache Demo.start |})
    ∧ ra_study_areas args = [].
Proof.
  apply (empty_study_areas_accepted (Demo.world []) "census-profile"
           (PyPath.of_string "out/report.pdf") "PDF" (Some Demo.gis1) Demo.gis1
           Demo.start eq_refl eq_refl).
Defined.

(** X15.  [export_format=None], which the signature admits, is not replaced by
    the default: a call that passes the session and geometry checks raises
    the [AttributeError] of [None.lower], and no call with it reaches the
    service. *)
Theorem none_format_raises w study_areas infographic_id out_path gis s :
  (∃ e, create_infographic w study_areas infographic_id out_path None gis s
        = (Raise e, s))
  ∧ (∀ g, ensure_gis w gis s = (Ok g, s) →
          forallb is_geometry (in_geom_of study_areas) = true →
          create_infographic w study_areas infographic_id out_path None gis s
          = (Raise (AttributeError "lower"), s)).
Proof.
  assert (Hrun : ∀ g, ensure_gis w gis s = (Ok g, s) →
            forallb is_geometry (in_geom_of study_areas) = true →
            create_infographic w study_areas infographic_id out_path None gis s
            = (Raise (AttributeError "lower"), s)).
  { intros g Hg Hgeo. unfold create_infographic. bind_with Hg. simpl.
    by rewrite Hgeo. }
  split; [|exact Hrun].
  destruct (ensure_gis w gis s) as [[g|e] s'] eqn:Hg.
  - apply ensure_gis_ok in Hg as Hs. destruct Hs as [-> _].
    destruct (forallb is_geometry (in_geom_of study_areas)) eqn:Hgeo; [eauto|].
    exists AssertionError. unfold create_infographic. bind_with Hg. simpl.
    by rewrite Hgeo.
  - apply ensure_gis_raise in Hg as Hs. subst s'.
    exists e. unfold create_infographic. by bind_with Hg.
Qed.

Lemma none_format_raises_witness :
  create_infographic (Demo.world []) (OneArea Demo.square) "census-profile"
    (OutPathObj (PyPath.of_string "report.pdf")) None (Some Demo.gis1) Demo.start
  = (Raise (AttributeError "lower"), Demo.start).
Proof.
  apply (proj2 (none_format_raises (Demo.world []) (OneArea Demo.square)
                  "census-profile" (OutPathObj (PyPath.of_string "report.pdf"))
                  (Some Demo.gis1) Demo.start)
           Demo.gis1 eq_refl eq_refl).
Defined.

Lemma lower_char_idempotent c :
  PyStr.lower_char (PyStr.lower_char c) = PyStr.lower_char c.
Proof. destruct c as [[] [] [] [] [] [] [] []]; reflexivity. Qed.

Lemma lower_idempotent f : PyStr.lower (PyStr.lower f) = PyStr.lower f.
Proof.
  induction f as [|c f IH]; [done|].
  cbn [PyStr.lower]. by rewrite lower_char_idempotent, IH.
Qed.

(** X16.  The letter case of the format does not matter to a call: it does the
    same, to the state and in its result, as the call with the format in
    lower case. *)
Theorem format_case_is_irrelevant w study_areas infographic_id out_path f gis s :
  create_infographic w study_areas infographic_id out_path (Some f) gis s
  = create_infographic w study_areas infographic_id out_path
      (Some (PyStr.lower f)) gis s.
Proof.
  assert (Hv : validate_export_format (Some (PyStr.lower f))
               = validate_export_format (Some f)).
  { unfold validate_export_format. by rewrite lower_idempotent. }
  unfold create_infographic, mbind, M_bind.
  destruct (ensure_gis w gis s) as [[g|e] s0]; [|done].
  destruct (assert _ s0) as [[[]|e] s1]; [|done].
  by rewrite Hv.
Qed.

(** *** The resolved file name *)

Lemma str_app_cons x (a b : string) : String x a +:+ b = String x (a +:+ b).
Proof. reflexivity. Qed.

Lemma str_app_assoc (a b c : string) : (a +:+ b) +:+ c = a +:+ (b +:+ c).
Proof.
  induction a as [|x a IH]; [done|]. rewrite !str_app_cons. f_equal. exact IH.
Qed.

Lemma str_length_app (a b : string) :
  String.length (a +:+ b) = (String.length a + String.length b)%nat.
Proof.
  induction a as [|x a IH]; [done|]. rewrite str_app_cons. simpl. by rewrite IH.
Qed.

(** A found index is that of an occurrence. *)
Lemma rfind_from_found c s : ∀ k r,
  PyStr.rfind_from c s k = r → 0 ≤ r →
  ∃ pre post, s = pre +:+ String c post ∧ r = k + Z.of_nat (String.length pre).
Proof.
  induction s as [|a s IH]; intros k r H Hr; simpl in H; [lia|].
  destruct (0 <=? PyStr.rfind_from c s (k + 1)) eqn:Hin.
  - apply Z.leb_le in Hin.
    destruct (IH (k + 1) _ eq_refl Hin) as (pre & post & -> & Hidx).
    exists (String a pre), post. split; [by rewrite str_app_cons|].
    simpl String.length. lia.
  - destruct (Ascii.eqb_spec a c) as [->|_]; [|lia].
    exists "", s. split; [done|]. simpl. lia.
Qed.

(** In a string that ends with a dot and a dot-free tail, the last dot is
    that one. *)
Lemma rfind_from_last_dot nm tail :
  (∀ j, PyStr.rfind_from "." tail j = -1) →
  ∀ k, 0 ≤ k →
    PyStr.rfind_from "." (nm +:+ String "." tail) k = k + Z.of_nat (String.length nm).
Proof.
  intros Htail. induction nm as [|a nm IH]; intros k Hk.
  - change ("" +:+ String "." tail) with (String "." tail).
    cbn [PyStr.rfind_from]. rewrite Htail. simpl. lia.
  - rewrite str_app_cons. cbn [PyStr.rfind_from]. rewrite IH by lia.
    assert ((0 <=? k + 1 + Z.of_nat (String.length nm)) = true) as ->
      by (apply Z.leb_le; lia).
    simpl String.length. lia.
Qed.

Lemma slice_from_app pre x :
  PyStr.slice_from (String.length pre) (pre +:+ x) = x.
Proof.
  induction pre as [|a pre IH]; [by destruct x|]. rewrite str_app_cons. exact IH.
Qed.

(** A suffix that is not empty starts at a dot of the name. *)
Lemma suffix_decompose p :
  PyPath.suffix p ≠ "" →
  ∃ pre post, PyPath.name p = pre +:+ String "." post
              ∧ PyPath.suffix p = String "." post.
Proof.
  unfold PyPath.suffix. cbv zeta.
  destruct (0 <? PyStr.rfind "." (PyPath.name p)) eqn:Hpos; simpl; [|done].
  destruct (PyStr.rfind "." (PyPath.name p) <? _); [|done]. intros _.
  apply Z.ltb_lt in Hpos.
  destruct (rfind_from_found "." (PyPath.name p) 0 _ eq_refl) as (pre & post & Hnm & Hidx);
    [unfold PyStr.rfind in Hpos; lia|].
  exists pre, post. split; [done|].
  unfold PyStr.rfind. rewrite Hidx, Z.add_0_l, Nat2Z.id.
  rewrite Hnm. apply slice_from_app.
Qed.

Lemma lstrip_keeps_a_dot post : ∀ pre,
  ∃ stem, pre +:+ String "." post = stem +:+ String "." (PyStr.lstrip "." post).
Proof.
  induction post as [|a post IH]; intros pre; [by exists pre|].
  cbn [PyStr.lstrip]. destruct (Ascii.eqb_spec a ".") as [->|_]; [|by exists pre].
  destruct (IH (pre +:+ ".")) as [stem Hstem]. exists stem.
  rewrite <- Hstem. by rewrite str_app_assoc.
Qed.

(** A name whose extension, as line 272 reads it, is [e] ends with a dot
    and [e]. *)
Lemma name_ends_with_extension p e :
  PyStr.lstrip "." (PyPath.suffix p) = e → e ≠ "" →
  ∃ stem, PyPath.name p = stem +:+ "." +:+ e.
Proof.
  intros He Hne.
  destruct (suffix_decompose p) as (pre & post & Hnm & Hsuf).
  { intros Hempty. rewrite Hempty in He. simpl in He. congruence. }
  rewrite Hsuf in He. cbn [PyStr.lstrip] in He. rewrite Ascii.eqb_refl in He.
  destruct (lstrip_keeps_a_dot post pre) as [stem Hstem].
  exists stem. rewrite Hnm, Hstem, He. done.
Qed.

Lemma resolve_out_name_cases p fmt :
  (resolve_out_name p fmt = PyPath.name p
   ∧ (PyStr.lstrip "." (PyPath.suffix p) = fmt
      ∨ (PyStr.lstrip "." (PyPath.suffix p) = "htm" ∧ fmt = "html")))
  ∨ resolve_out_name p fmt = PyPath.name p +:+ "." +:+ fmt.
Proof.
  unfold resolve_out_name. cbv zeta.
  destruct (String.eqb_spec (PyStr.lstrip "." (PyPath.suffix p)) "htm") as [Hhtm|_];
    simpl.
  - destruct (String.eqb_spec fmt "html") as [->|_]; simpl; [left; auto|].
    destruct (String.eqb_spec fmt (PyStr.lstrip "." (PyPath.suffix p))) as [->|_];
      simpl; [left|right]; auto.
  - destruct (String.eqb_spec fmt (PyStr.lstrip "." (PyPath.suffix p))) as [->|_];
      simpl; [left|right]; auto.
Qed.

(** X17.  For a format that is not empty, the file name handed to
    [create_report] ends with a dot and the format, unless the format is
    ["html"] and the extension of the path is [htm]; in that one case the
    name is the file name of the path as it is, which ends with [.htm]. *)
Theorem out_name_carries_extension p fmt :
  fmt ≠ "" →
  (¬ (PyStr.lstrip "." (PyPath.suffix p) = "htm" ∧ fmt = "html") →
   ∃ stem, resolve_out_name p fmt = stem +:+ "." +:+ fmt)
  ∧ (PyStr.lstrip "." (PyPath.suffix p) = "htm" → fmt = "html" →
     resolve_out_name p fmt = PyPath.name p
     ∧ ∃ stem, PyPath.name p = stem +:+ ".htm").
Proof.
  intros Hne. split.
  - intros Hnot.
    destruct (resolve_out_name_cases p fmt) as [[-> [Hext|Hhtm]]| ->].
    + by apply name_ends_with_extension.
    + by destruct Hnot.
    + by exists (PyPath.name p).
  - intros Hext ->. split.
    + unfold resolve_out_name. rewrite Hext. reflexivity.
    + by apply (name_ends_with_extension p "htm").
Qed.

Lemma out_name_carries_extension_witness :
  (∃ stem,
     resolve_out_name (PyPath.of_string "maps/report.v2.PDF") "pdf"
     = stem +:+ "." +:+ "pdf")
  ∧ resolve_out_name (PyPath.of_string "maps/site.htm") "html" = "site.htm".
Proof.
  split.
  - apply (proj1 (out_name_carries_extension
                    (PyPath.of_string "maps/report.v2.PDF") "pdf" ltac:(discriminate))).
    intros [H _]. vm_compute in H. discriminate H.
  - apply (proj2 (out_name_carries_extension
                    (PyPath.of_string "maps/site.htm") "html" ltac:(discriminate))
             eq_refl eq_refl).
Defined.

Lemma supported_format_cases fmt :
  PyStr.in_list fmt ["xlsx"; "pdf"; "html"] = true →
  fmt = "xlsx" ∨ fmt = "pdf" ∨ fmt = "html".
Proof.
  intros H. apply in_list_elem_of in H.
  repeat (apply elem_of_cons in H as [->|H]; [auto|]).
  by apply elem_of_nil in H.
Qed.

Lemma resolve_out_name_by_name p p' fmt :
  PyPath.name p' = PyPath.name p →
  resolve_out_name p' fmt = resolve_out_name p fmt.
Proof.
  intros H. unfold resolve_out_name, PyPath.suffix. by rewrite H.
Qed.

(** The suffix of a name made of a non-empty stem, a dot and a dot-free
    non-empty tail is the dot and the tail. *)
Lemma suffix_of_extended p nm tail :
  PyPath.name p = nm +:+ String "." tail →
  nm ≠ "" → tail ≠ "" →
  (∀ j, PyStr.rfind_from "." tail j = -1) →
  PyPath.suffix p = String "." tail.
Proof.
  intros Hnm Hstem Htail Hfree. unfold PyPath.suffix. cbv zeta.
  unfold PyStr.rfind. rewrite Hnm.
  rewrite (rfind_from_last_dot nm tail Hfree 0) by lia. rewrite Z.add_0_l.
  rewrite str_length_app. simpl String.length.
  assert ((0 <? Z.of_nat (String.length nm)) = true) as ->.
  { apply Z.ltb_lt. destruct nm; [done|]. simpl. lia. }
  assert ((Z.of_nat (String.length nm)
           <? Z.of_nat (String.length nm + S (String.length tail)) - 1) = true) as ->.
  { apply Z.ltb_lt. destruct tail; [done|]. simpl. lia. }
  simpl andb. cbv iota. rewrite Nat2Z.id. apply slice_from_app.
Qed.

(** X18.  Resolving is stable: for a path that has a file name, a path named as
    the resolved name resolves to that same name, under the same supported
    format; nothing is appended a second time. *)
Theorem resolve_out_name_stable p p' fmt :
  PyStr.in_list fmt ["xlsx"; "pdf"; "html"] = true →
  PyPath.name p ≠ "" →
  PyPath.name p' = resolve_out_name p fmt →
  resolve_out_name p' fmt = PyPath.name p'.
Proof.
  intros Hfmt Hnm Hp'.
  destruct (resolve_out_name_cases p fmt) as [[Hsame _]|Hext].
  - rewrite Hsame in Hp'. rewrite (resolve_out_name_by_name p p' fmt Hp').
    by rewrite Hsame.
  - rewrite Hext in Hp'.
    assert (Hsuf : PyPath.suffix p' = String "." fmt).
    { apply (suffix_of_extended p' (PyPath.name p) fmt); [done|done| |];
        destruct (supported_format_cases fmt Hfmt) as [-> | [-> | ->]]; done. }
    unfold resolve_out_name. rewrite Hsuf.
    destruct (supported_format_cases fmt Hfmt) as [-> | [-> | ->]]; reflexivity.
Qed.

Lemma resolve_out_name_stable_witness :
  resolve_out_name (PyPath.of_string "report.PDF.pdf") "pdf" = "report.PDF.pdf".
Proof.
  apply (resolve_out_name_stable (PyPath.of_string "report.PDF")
           (PyPath.of_string "report.PDF.pdf") "pdf"); [reflexivity|discriminate|reflexivity].
Defined.

(** *** The custom table *)

(** X19.  When at least one searched item passes the filter, the table has the
    seven columns [title], [itemID], [itemDescription], [countries],
    [formats], [owner], [category], one row per passing item, and seven
    cells in every row, the last of them ["custom"]. *)
Theorem custom_table_shape w gis g s :
  ensure_gis w gis s = (Ok g, s) →
  List.filter has_infographic_keyword (search_of w g "type:Report Template") ≠ [] →
  ∃ df s',
    get_organization_infographics w gis s = (Ok df, s')
    ∧ columns df = ["title"; "itemID"; "itemDescription"; "countries"; "formats";
                    "owner"; "category"]
    ∧ length (rows df)
      = length (List.filter has_infographic_keyword
                  (search_of w g "type:Report Template"))
    ∧ Forall (λ r, length r = 7%nat ∧ last r = Some (PStr "custom")) (rows df).
Proof.
  intros Hg Hsome. eexists _, _.
  split; [by apply get_organization_infographics_run|].
  cbn [columns rows].
  destruct (List.filter has_infographic_keyword _) as [|itm itms]; [done|].
  split; [done|]. split; [by rewrite length_map|].
  apply Forall_forall. intros r Hr.
  apply list_elem_of_fmap in Hr as (i & -> & _). done.
Qed.

Lemma custom_table_shape_witness :
  ∃ df s',
    get_organization_infographics
      (Demo.world [Demo.template_item "template";
                   Demo.template_item "Esri Infographic"])
      (Some Demo.gis1) Demo.start
    = (Ok df, s')
    ∧ columns df = ["title"; "itemID"; "itemDescription"; "countries"; "formats";
                    "owner"; "category"]
    ∧ length (rows df) = 1%nat
    ∧ Forall (λ r, length r = 7%nat ∧ last r = Some (PStr "custom")) (rows df).
Proof.
  apply (custom_table_shape
           (Demo.world [Demo.template_item "template";
                        Demo.template_item "Esri Infographic"])
           (Some Demo.gis1) Demo.gis1 Demo.start eq_refl).
  vm_compute. discriminate.
Defined.
